(** * ObfusPS-Tool: a shallow embedding of the batch obfuscation front-end

    The development follows [ObfusPS-Tool.py].  Python strings are modelled
    as [string], by their UTF-8 encoding, file contents as
    [list Byte.byte], dictionaries as [gmap], the filesystem as a finite map
    from absolute paths to nodes, and the interactive session as a
    state-and-exception monad over a [World] (filesystem, console input,
    console output, engine invocations).  Path algebra is [posixpath]'s. *)

From Stdlib Require Import Ascii String ZArith Lia.
From stdpp Require Import base option list gmap strings pretty.

Local Open Scope Z_scope.

(** ** Python string primitives *)

Module Py.

(** A [str] is modelled by its UTF-8 encoding, so a code point takes one to
    four characters of the [string].  The Unicode tables are those of
    Python 3.11 (Unicode 14.0). *)

(** [str.isspace] on one code point, by the length of its encoding:
    U+0009..U+000D and U+001C..U+0020 (one byte); U+0085 and U+00A0 (two
    bytes); U+1680, U+2000..U+200A, U+2028, U+2029, U+202F, U+205F and
    U+3000 (three bytes). *)
Definition isspace (c : ascii) : bool :=
  let n := nat_of_ascii c in
  ((9 <=? n)%nat && (n <=? 13)%nat) || ((28 <=? n)%nat && (n <=? 32)%nat).

Definition isspace2 (a b : ascii) : bool :=
  bool_decide (a = "194"%char)
  && (bool_decide (b = "133"%char) || bool_decide (b = "160"%char)).

Definition isspace3 (a b c : ascii) : bool :=
  let n := nat_of_ascii c in
  (bool_decide (a = "225"%char) && bool_decide (b = "154"%char)
   && bool_decide (c = "128"%char))
  || (bool_decide (a = "226"%char) && bool_decide (b = "128"%char)
      && (((128 <=? n)%nat && (n <=? 138)%nat)
          || bool_decide (c = "168"%char) || bool_decide (c = "169"%char)
          || bool_decide (c = "175"%char)))
  || (bool_decide (a = "226"%char) && bool_decide (b = "129"%char)
      && bool_decide (c = "159"%char))
  || (bool_decide (a = "227"%char) && bool_decide (b = "128"%char)
      && bool_decide (c = "128"%char)).

Definition isupper (c : ascii) : bool :=
  let n := nat_of_ascii c in (65 <=? n)%nat && (n <=? 90)%nat.

Definition isdigit_char (c : ascii) : bool :=
  let n := nat_of_ascii c in (48 <=? n)%nat && (n <=? 57)%nat.

Definition lower_char (c : ascii) : ascii :=
  if isupper c then ascii_of_nat (nat_of_ascii c + 32) else c.

(** [s.lower()], as far as the tool can tell: the ASCII letters are
    lowered and every other code point is left as it is.  The tool only
    compares the result with ASCII words that hold no [i] followed by a
    combining mark and no [k], and the only code points outside ASCII whose
    lowercase form holds an ASCII letter are U+0130 (to [i] and U+0307) and
    U+212A (to [k]); so every such comparison comes out as in Python. *)
Fixpoint lower (s : string) : string :=
  match s with
  | EmptyString => EmptyString
  | String c s' => String (lower_char c) (lower s')
  end.

Fixpoint lstrip_by (p : ascii → bool) (s : string) : string :=
  match s with
  | EmptyString => EmptyString
  | String c s' => if p c then lstrip_by p s' else s
  end.

Definition rstrip_by (p : ascii → bool) (s : string) : string :=
  String.rev (lstrip_by p (String.rev s)).

Definition strip_by (p : ascii → bool) (s : string) : string :=
  rstrip_by p (lstrip_by p s).

(** Dropping the leading code points of a set given by its encodings of
    one, two and three bytes. *)
Fixpoint lstrip_seq (p1 : ascii → bool) (p2 : ascii → ascii → bool)
    (p3 : ascii → ascii → ascii → bool) (s : string) : string :=
  match s with
  | EmptyString => EmptyString
  | String a s1 =>
      if p1 a then lstrip_seq p1 p2 p3 s1
      else
        match s1 with
        | EmptyString => s
        | String b s2 =>
            if p2 a b then lstrip_seq p1 p2 p3 s2
            else
              match s2 with
              | EmptyString => s
              | String c s3 => if p3 a b c then lstrip_seq p1 p2 p3 s3 else s
              end
        end
  end.

(** [s.lstrip()] *)
Definition lstrip (s : string) : string := lstrip_seq isspace isspace2 isspace3 s.

(** [s.rstrip()]: the same scan from the end, every encoding read
    backwards. *)
Definition rstrip (s : string) : string :=
  String.rev (lstrip_seq isspace (λ b a, isspace2 a b) (λ c b a, isspace3 a b c)
                (String.rev s)).

(** [s.strip()] *)
Definition strip (s : string) : string := rstrip (lstrip s).

(** [s.strip(c)] for a one-character argument *)
Definition strip_char (c : ascii) (s : string) : string :=
  strip_by (λ x, bool_decide (x = c)) s.

(** [s.startswith(p)] *)
Fixpoint startswith (s p : string) : bool :=
  match p, s with
  | EmptyString, _ => true
  | String a p', String b s' => bool_decide (a = b) && startswith s' p'
  | String _ _, EmptyString => false
  end.

(** [s.endswith(p)] *)
Definition endswith (s p : string) : bool :=
  startswith (String.rev s) (String.rev p).

(** [c in s] for a one-character [c] *)
Fixpoint contains_char (c : ascii) (s : string) : bool :=
  match s with
  | EmptyString => false
  | String a s' => bool_decide (a = c) || contains_char c s'
  end.

(** [str(n)] for an integer *)
Definition str (n : Z) : string := pretty n.

(** [sep.join(l)] *)
Fixpoint join (sep : string) (l : list string) : string :=
  match l with
  | [] => ""
  | [x] => x
  | x :: l' => x +:+ sep +:+ join sep l'
  end.

(** [s.split()]: split on runs of white space *)
Fixpoint split_go (cur : option string) (s : string) : list string :=
  let flush := option_list (String.rev <$> cur) in
  match s with
  | EmptyString => flush
  | String a s1 =>
      if isspace a then flush ++ split_go None s1
      else
        match s1 with
        | EmptyString => split_go (Some (String a (default "" cur))) s1
        | String b s2 =>
            if isspace2 a b then flush ++ split_go None s2
            else
              match s2 with
              | EmptyString => split_go (Some (String a (default "" cur))) s1
              | String c s3 =>
                  if isspace3 a b c then flush ++ split_go None s3
                  else split_go (Some (String a (default "" cur))) s1
              end
        end
  end.

Definition split (s : string) : list string := split_go None s.

(** [s.splitlines()]: the line boundaries are LF, VT, FF, CR, FS, GS, RS,
    U+0085, U+2028 and U+2029; a CR LF pair counts once. *)
Definition is_linebreak (c : ascii) : bool :=
  let n := nat_of_ascii c in
  ((10 <=? n)%nat && (n <=? 13)%nat) || ((28 <=? n)%nat && (n <=? 30)%nat).

Definition is_linebreak2 (a b : ascii) : bool :=
  bool_decide (a = "194"%char) && bool_decide (b = "133"%char).

Definition is_linebreak3 (a b c : ascii) : bool :=
  bool_decide (a = "226"%char) && bool_decide (b = "128"%char)
  && (bool_decide (c = "168"%char) || bool_decide (c = "169"%char)).

Fixpoint splitlines_go (cur : string) (s : string) : list string :=
  match s with
  | EmptyString => if bool_decide (cur = "") then [] else [String.rev cur]
  | String a s1 =>
      match s1 with
      | EmptyString =>
          if is_linebreak a then [String.rev cur] else splitlines_go (String a cur) s1
      | String b s2 =>
          if bool_decide (a = "013"%char) then
            (if bool_decide (b = "010"%char)
             then String.rev cur :: splitlines_go "" s2
             else String.rev cur :: splitlines_go "" s1)
          else if is_linebreak a then String.rev cur :: splitlines_go "" s1
          else if is_linebreak2 a b then String.rev cur :: splitlines_go "" s2
          else
            match s2 with
            | EmptyString => splitlines_go (String a cur) s1
            | String c s3 =>
                if is_linebreak3 a b c then String.rev cur :: splitlines_go "" s3
                else splitlines_go (String a cur) s1
            end
      end
  end.

Definition splitlines (s : string) : list string := splitlines_go "" s.

(** The code points of a string.  [lead] reads the first byte of a
    sequence: the code point when it stands alone, else what it contributes
    and the number of bytes to come; a byte out of place gives U+FFFD. *)
Definition lead (n : N) : option N * N * nat :=
  (if n <? 128 then (Some n, 0, 0%nat)
   else if (192 <=? n) && (n <? 224) then (None, n - 192, 1%nat)
   else if (224 <=? n) && (n <? 240) then (None, n - 224, 2%nat)
   else if (240 <=? n) && (n <? 248) then (None, n - 240, 3%nat)
   else (Some 65533, 0, 0%nat))%N.

Fixpoint code_points_go (acc : N) (need : nat) (s : string) : list N :=
  match s with
  | EmptyString => match need with O => [] | S _ => [65533%N] end
  | String c s' =>
      let n := N_of_ascii c in
      match need with
      | S k =>
          if ((128 <=? n) && (n <? 192))%N then
            let acc := (acc * 64 + (n - 128))%N in
            match k with
            | O => acc :: code_points_go 0 0 s'
            | S _ => code_points_go acc k s'
            end
          else
            let '(out, acc, need) := lead n in
            65533%N :: option_list out ++ code_points_go acc need s'
      | O =>
          let '(out, acc, need) := lead n in
          option_list out ++ code_points_go acc need s'
      end
  end.

Definition code_points (s : string) : list N := code_points_go 0 0 s.

(** The decimal digits (general category Nd) come in runs of ten; these
    are the code points of the zeros. *)
Definition decimal_zeros : list N :=
  [48; 1632; 1776; 1984; 2406; 2534; 2662; 2790; 2918; 3046; 3174; 3302; 3430;
   3558; 3664; 3792; 3872; 4160; 4240; 6112; 6160; 6470; 6608; 6784; 6800;
   6992; 7088; 7232; 7248; 42528; 43216; 43264; 43472; 43504; 43600; 44016;
   65296; 66720; 68912; 69734; 69872; 69942; 70096; 70384; 70736; 70864;
   71248; 71360; 71472; 71904; 72016; 72784; 73040; 73120; 92768; 92864;
   93008; 120782; 120792; 120802; 120812; 120822; 123200; 123632; 125264;
   130032]%N.

(** The value of a decimal digit. *)
Definition decimal_value (cp : N) : option Z :=
  (λ zero, Z.of_N (cp - zero)) <$>
  find (λ zero, ((zero <=? cp) && (cp <? zero + 10))%N) decimal_zeros.

(** The other code points that [str.isdigit] accepts (superscripts,
    subscripts, circled digits and the like), as inclusive ranges. *)
Definition other_digits : list (N * N) :=
  [(178, 179); (185, 185); (4969, 4977); (6618, 6618); (8304, 8304);
   (8308, 8313); (8320, 8329); (9312, 9320); (9332, 9340); (9352, 9360);
   (9450, 9450); (9461, 9469); (9471, 9471); (10102, 10110); (10112, 10120);
   (10122, 10130); (68160, 68163); (69216, 69224); (69714, 69722);
   (127232, 127242)]%N.

Definition isdigit_point (cp : N) : bool :=
  bool_decide (is_Some (decimal_value cp))
  || existsb (λ r : N * N, ((r.1 <=? cp) && (cp <=? r.2))%N) other_digits.

(** [s.isdigit()] *)
Definition isdigit (s : string) : bool :=
  match code_points s with
  | [] => false
  | l => forallb isdigit_point l
  end.

(** [int(s)]: white space around (of which [int] does not count U+001C to
    U+001F), an optional sign, then a non-empty run of decimal digits in
    which single underscores may separate digits; more than 4300 digits are
    refused.  [None] stands for [ValueError]. *)
Definition int_space (cp : N) : bool :=
  (((9 <=? cp) && (cp <=? 13)) || (cp =? 32) || (cp =? 133) || (cp =? 160)
   || (cp =? 5760) || ((8192 <=? cp) && (cp <=? 8202)) || (cp =? 8232)
   || (cp =? 8233) || (cp =? 8239) || (cp =? 8287) || (cp =? 12288))%N.

Definition int_max_str_digits : nat := 4300.

Fixpoint drop_while {A} (p : A → bool) (l : list A) : list A :=
  match l with
  | [] => []
  | x :: l' => if p x then drop_while p l' else l
  end.

(** The value and the number of digits read. *)
Fixpoint digits_value (acc : Z) (count : nat) (prev_digit : bool) (l : list N)
  : option (Z * nat) :=
  match l with
  | [] => if prev_digit then Some (acc, count) else None
  | cp :: l' =>
      match decimal_value cp with
      | Some d => digits_value (10 * acc + d) (S count) true l'
      | None =>
          if bool_decide (cp = 95%N) && prev_digit
          then match l' with
               | cp' :: _ =>
                   match decimal_value cp' with
                   | Some _ => digits_value acc count false l'
                   | None => None
                   end
               | [] => None
               end
          else None
      end
  end.

Definition int_digits (l : list N) : option Z :=
  match digits_value 0 0 false l with
  | Some (v, count) => if (count <=? int_max_str_digits)%nat then Some v else None
  | None => None
  end.

Definition int (s : string) : option Z :=
  let l := drop_while int_space (code_points s) in
  let l := reverse (drop_while int_space (reverse l)) in
  match l with
  | 45%N :: l' => Z.opp <$> int_digits l'
  | 43%N :: l' => int_digits l'
  | _ => int_digits l
  end.

End Py.

(** ** [posixpath] *)

Module Path.

Definition sep : string := "/".

Definition isabs (p : string) : bool := Py.startswith p sep.

(** [os.path.join(a, b)] *)
Definition join (a b : string) : string :=
  if Py.startswith b sep then b
  else if bool_decide (a = "") || Py.endswith a sep then a +:+ b
  else a +:+ sep +:+ b.

(** [s[s.rfind(c) + 1:]]: the part of [s] after its last [c], the whole of
    [s] when [c] does not occur. *)
Fixpoint after_last (c : ascii) (s : string) : string :=
  match s with
  | EmptyString => EmptyString
  | String a s' =>
      if Py.contains_char c s then
        (if Py.contains_char c s' then after_last c s' else s')
      else s
  end.

(** [os.path.basename(p)]: everything after the last slash. *)
Definition basename (p : string) : string := after_last "/" p.

(** [p.split('/')] *)
Fixpoint split_on (c : ascii) (cur : string) (s : string) : list string :=
  match s with
  | EmptyString => [String.rev cur]
  | String a s' =>
      if bool_decide (a = c) then String.rev cur :: split_on c "" s'
      else split_on c (String a cur) s'
  end.

(** [os.path.dirname(p)]: everything up to the last slash, without the
    trailing slashes unless it consists of slashes only. *)
Definition dirname (p : string) : string :=
  let head := String.rev (Py.lstrip_by (λ x, negb (bool_decide (x = "/"%char))) (String.rev p)) in
  if bool_decide (Py.lstrip_by (λ x, bool_decide (x = "/"%char)) head = "") then head
  else Py.rstrip_by (λ x, bool_decide (x = "/"%char)) head.

(** [genericpath._splitext] applied to a name: the extension starts at the
    last dot, unless only dots precede it. *)
Fixpoint only_dots (s : string) : bool :=
  match s with
  | EmptyString => true
  | String a s' => bool_decide (a = "."%char) && only_dots s'
  end.

Definition splitext (p : string) : string * string :=
  let name := basename p in
  if Py.contains_char "." name then
    let ext := String "." (after_last "." name) in
    let stem_len := (String.length p - String.length ext)%nat in
    let stem := String.substring 0 stem_len p in
    let name_stem := String.substring 0 (String.length name - String.length ext) name in
    if only_dots name_stem then (p, "") else (stem, ext)
  else (p, "").

(** [os.path.normpath(p)] *)
Definition norm_step (initial_slashes : bool) (acc : list string) (comp : string)
  : list string :=
  if bool_decide (comp = "") || bool_decide (comp = ".") then acc
  else if negb (bool_decide (comp = ".."))
          || (negb initial_slashes && bool_decide (acc = []))
          || bool_decide (last acc = Some "..")
       then acc ++ [comp]
       else removelast acc.

Definition normpath (p : string) : string :=
  if bool_decide (p = "") then "."
  else
    let slashes :=
      if Py.startswith p "/" then
        (if Py.startswith p "//" && negb (Py.startswith p "///") then "//" else "/")
      else "" in
    let comps := foldl (norm_step (Py.startswith p "/")) [] (split_on "/" "" p) in
    let r := slashes +:+ Py.join "/" comps in
    if bool_decide (r = "") then "." else r.

(** [os.path.abspath(p)] in working directory [cwd] *)
Definition abspath (cwd p : string) : string :=
  normpath (if isabs p then p else join cwd p).

End Path.

(** ** The world the tool runs in *)

(** A filesystem entry; the filesystem maps absolute, normalised paths to
    entries. *)
Inductive node :=
  | File (content : list Byte.byte)
  | Dir.

#[global] Instance byte_eq_dec : EqDecision Byte.byte := Byte.byte_eq_dec.

#[global] Instance node_eq_dec : EqDecision node.
Proof. solve_decision. Defined.

(** Python exceptions the tool can meet.  [OtherError] stands for any other
    subclass of [Exception]. *)
Inductive exn :=
  | KeyboardInterrupt
  | EOFError
  | OSError (msg : string)
  | ValueError (msg : string)
  | OtherError (msg : string).

Definition exn_text (e : exn) : string :=
  match e with
  | KeyboardInterrupt => ""
  | EOFError => "EOF when reading a line"
  | OSError m | ValueError m | OtherError m => m
  end.

(** [except Exception], [except OSError], [except KeyboardInterrupt],
    [except (ValueError, KeyboardInterrupt)] *)
Definition is_Exception (e : exn) : bool :=
  match e with KeyboardInterrupt => false | _ => true end.
Definition is_OSError (e : exn) : bool :=
  match e with OSError _ => true | _ => false end.
Definition is_KeyboardInterrupt (e : exn) : bool :=
  match e with KeyboardInterrupt => true | _ => false end.
Definition is_ValueError_or_KeyboardInterrupt (e : exn) : bool :=
  match e with ValueError _ | KeyboardInterrupt => true | _ => false end.

(** What the user does at an [input()] prompt. *)
Inductive console_in :=
  | Line (s : string)
  | CtrlC.

(** What the tool sends to the console. *)
Inductive console_out :=
  | Printed (s : string)
  | Prompted (s : string)
  | Cleared
  | Titled (s : string).

(** Outcome of [subprocess.run] on the engine: it exits with a return code
    and captured streams, leaving the filesystem as it made it, or the call
    raises. *)
Inductive proc_result :=
  | Exited (returncode : Z) (stdout stderr : string) (fs' : gmap string node)
  | Raised (e : exn).

(** Outcome of the [tkinter] file dialog. *)
Inductive picker_result :=
  | PickerUnavailable
  | PickerRaised (e : exn)
  | Picked (files : list string).

(** The environment of one session: everything the tool consults but does
    not own.  The clock is read as one value for the session.  The banner
    and the menus are multi-line console art; they are kept as fields, their
    text plays no part below. *)
Record Env := {
  win32 : bool;                                (* sys.platform == 'win32' *)
  cwd : string;                                (* os.getcwd() *)
  script_dir : string;                         (* get_script_dir() *)
  clock : string;                              (* current_time_hour() *)
  which : string → option string;              (* shutil.which *)
  removable : string → bool;                   (* unlink / rmdir of the entry succeeds *)
  engine : list string → option string → gmap string node → proc_result;
  shlex_split : string → option (list string); (* shlex.split, None = ValueError *)
  picker : picker_result;
  BANNER : string;                             (* presentation texts *)
  MODE_MENU : string;
  FLAGS_HELP : string;
  LEVEL_MENU : string;
}.

Record World := {
  w_fs : gmap string node;
  w_stdin : list console_in;
  w_out : list console_out;
  w_calls : list (list string * option string);  (* engine command lines, with cwd *)
}.

(** ** State and exceptions *)

Inductive res (A : Type) :=
  | Val (a : A)
  | Exc (e : exn).
Arguments Val {A} a.
Arguments Exc {A} e.

Definition M (A : Type) : Type := World → res A * World.

#[global] Instance M_ret : MRet M := λ A a w, (Val a, w).
#[global] Instance M_bind : MBind M := λ A B f m w,
  match m w with
  | (Val a, w') => f a w'
  | (Exc e, w') => (Exc e, w')
  end.

Definition raise {A} (e : exn) : M A := λ w, (Exc e, w).

(** [try: m except <catches> as e: h e] *)
Definition try_except {A} (m : M A) (catches : exn → bool) (h : exn → M A) : M A :=
  λ w, match m w with
       | (Exc e, w') => if catches e then h e w' else (Exc e, w')
       | r => r
       end.

(** [for x in l: body x] *)
Fixpoint for_each {A} (l : list A) (body : A → M unit) : M unit :=
  match l with
  | [] => mret tt
  | x :: l' => body x ;; for_each l' body
  end.

Definition get_fs : M (gmap string node) := λ w, (Val (w_fs w), w).
Definition put_fs (fs : gmap string node) : M unit := λ w,
  (Val tt, {| w_fs := fs; w_stdin := w_stdin w; w_out := w_out w; w_calls := w_calls w |}).
Definition emit (o : console_out) : M unit := λ w,
  (Val tt, {| w_fs := w_fs w; w_stdin := w_stdin w; w_out := w_out w ++ [o];
              w_calls := w_calls w |}).

(** [print(s)] *)
Definition print (s : string) : M unit := emit (Printed s).

(** [input(prompt)] *)
Definition input (prompt : string) : M string := λ w,
  let w1 := {| w_fs := w_fs w; w_stdin := tail (w_stdin w);
               w_out := w_out w ++ [Prompted prompt]; w_calls := w_calls w |} in
  match w_stdin w with
  | Line s :: _ => (Val s, w1)
  | CtrlC :: _ => (Exc KeyboardInterrupt, w1)
  | [] => (Exc EOFError, w1)
  end.

(** [subprocess.run(cmd, cwd=...)] on the engine *)
Definition subprocess_run (env : Env) (cmd : list string) (dir : option string)
  : M (Z * string * string) := λ w,
  let w1 fs := {| w_fs := fs; w_stdin := w_stdin w; w_out := w_out w;
                  w_calls := w_calls w ++ [(cmd, dir)] |} in
  match engine env cmd dir (w_fs w) with
  | Exited rc out err fs' => (Val (rc, out, err), w1 fs')
  | Raised e => (Exc e, w1 (w_fs w))
  end.

(** ** Filesystem operations *)

Module Fs.

Section ops.
Context (env : Env).

(** Every operation resolves its path against the working directory.  The
    two leading slashes that [normpath] keeps name the same root as one, so
    they name the same entry. *)
Definition key (p : string) : string :=
  match Path.abspath (cwd env) p with
  | String "/" (String "/" rest) => String "/" rest
  | q => q
  end.

(** [q] is [root] or lies underneath it. *)
Definition within (root q : string) : bool :=
  bool_decide (q = root) || Py.startswith q (root +:+ "/").

Definition isfile (fs : gmap string node) (p : string) : bool :=
  match fs !! key p with Some (File _) => true | _ => false end.

Definition isdir (fs : gmap string node) (p : string) : bool :=
  match fs !! key p with Some Dir => true | _ => false end.

(** [os.path.getsize]; the size reported for a directory is taken as 0. *)
Definition getsize (fs : gmap string node) (p : string) : exn + Z :=
  match fs !! key p with
  | Some (File b) => inr (Z.of_nat (length b))
  | Some Dir => inr 0
  | None => inl (OSError ("No such file or directory: " +:+ p))
  end.

(** [open(p, 'rb').read()] *)
Definition read_bytes (fs : gmap string node) (p : string) : exn + list Byte.byte :=
  match fs !! key p with
  | Some (File b) => inr b
  | Some Dir => inl (OSError ("Is a directory: " +:+ p))
  | None => inl (OSError ("No such file or directory: " +:+ p))
  end.

(** [open(p, 'wb').write(b)]: the parent must be a directory and the
    target must not be one. *)
Definition write_bytes (fs : gmap string node) (p : string) (b : list Byte.byte)
  : exn + gmap string node :=
  match fs !! key p with
  | Some Dir => inl (OSError ("Is a directory: " +:+ p))
  | _ =>
      match fs !! Path.dirname (key p) with
      | Some Dir => inr (<[key p := File b]> fs)
      | _ => inl (OSError ("No such file or directory: " +:+ p))
      end
  end.

(** [shutil.copy2(src, dst)] (contents only) *)
Definition copy2 (fs : gmap string node) (src dst : string) : exn + gmap string node :=
  let dst := if isdir fs dst then Path.join dst (Path.basename src) else dst in
  if bool_decide (key src = key dst) && bool_decide (is_Some (fs !! key src))
  then inl (OSError (src +:+ " and " +:+ dst +:+ " are the same file"))
  else match read_bytes fs src with
       | inl e => inl e
       | inr b => write_bytes fs dst b
       end.

(** An entry survives a recursive removal when it, or an entry underneath
    it, cannot be removed. *)
Definition stuck (fs : gmap string node) (p : string) : Prop :=
  map_Exists (λ q _, within p q = true ∧ removable env q = false) fs.

#[global] Instance stuck_dec fs p : Decision (stuck fs p).
Proof. unfold stuck. apply _. Defined.

(** [shutil.rmtree(p, ignore_errors=True)]: every failure is swallowed,
    that of the final [rmdir] of [p] itself included; on anything but a
    directory nothing is removed. *)
Definition rmtree_ignore_errors (fs : gmap string node) (p : string)
  : exn + gmap string node :=
  match fs !! key p with
  | Some Dir =>
      inr (filter (λ kv : string * node,
                     within (key p) kv.1 = false ∨ stuck fs kv.1) fs)
  | _ => inr fs
  end.

(** The path and its ancestors below the root directory, shortest first. *)
Fixpoint prefixes (acc : string) (comps : list string) : list string :=
  match comps with
  | [] => []
  | c :: comps' =>
      let q := acc +:+ "/" +:+ c in
      q :: prefixes q comps'
  end.

Definition ancestors (k : string) : list string :=
  prefixes "" (filter (λ c, c ≠ "") (Path.split_on "/" "" k)).

Definition ensure_dir (acc : exn + gmap string node) (q : string)
  : exn + gmap string node :=
  match acc with
  | inl e => inl e
  | inr fs =>
      match fs !! q with
      | Some Dir => inr fs
      | Some (File _) => inl (OSError ("File exists: " +:+ q))
      | None => inr (<[q := Dir]> fs)
      end
  end.

(** [os.makedirs(p, exist_ok=True)] *)
Definition makedirs (fs : gmap string node) (p : string) : exn + gmap string node :=
  foldl ensure_dir (inr fs) (ancestors (key p)).

End ops.

End Fs.

(** Lifting a filesystem query or update into the monad. *)
Definition fs_query {A} (f : gmap string node → exn + A) : M A := λ w,
  match f (w_fs w) with
  | inl e => (Exc e, w)
  | inr a => (Val a, w)
  end.

Definition fs_update (f : gmap string node → exn + gmap string node) : M unit :=
  fs ← fs_query f; put_fs fs.

(** [for x in l: s = body s x], the loop state threaded through. *)
Fixpoint fold_each {A S} (l : list A) (s : S) (body : S → A → M S) : M S :=
  match l with
  | [] => mret s
  | x :: l' => s' ← body s x; fold_each l' s' body
  end.

(** [enumerate(l, start)] *)
Fixpoint enumerate {A} (start : Z) (l : list A) : list (Z * A) :=
  match l with
  | [] => []
  | x :: l' => (start, x) :: enumerate (start + 1) l'
  end.

(** ** Module-level constants *)

Definition esc : string := String "027" "".
Definition dquote : string := String "034" "".
Definition red : string := esc +:+ "[31m".
Definition white : string := esc +:+ "[37m".
Definition reset : string := esc +:+ "[39m".
Definition green : string := esc +:+ "[32m".
Definition cyan : string := esc +:+ "[36m".
Definition yellow : string := esc +:+ "[33m".

Definition BEFORE : string := red +:+ "[" +:+ white.
Definition AFTER : string := red +:+ "]".
Definition INPUT : string := BEFORE +:+ ">" +:+ AFTER +:+ " |".
Definition INFO : string := BEFORE +:+ "!" +:+ AFTER +:+ " |".
Definition ERROR : string := BEFORE +:+ "x" +:+ AFTER +:+ " |".
Definition ADD : string := BEFORE +:+ "+" +:+ AFTER +:+ " |".
Definition WAIT : string := BEFORE +:+ "~" +:+ AFTER +:+ " |".

Definition MAX_INPUT_SIZE : Z := 50 * 1024 * 1024.

Definition VALID_PROFILES : list string :=
  ["safe"; "light"; "balanced"; "heavy"; "stealth"; "paranoid"; "redteam";
   "blueteam"; "size"; "dev"].

Definition by_ : string := "BenzoXdev".

Definition folder : string := "ObfusPS".
Definition output_folder_1 : string := Path.join folder "Script-Obfuscate".
Definition script_folder : string := Path.join folder "Script".

(** ** Helpers of the tool *)

Definition current_time_hour (env : Env) : string := clock env.

(** [ts = BEFORE + current_time_hour() + AFTER] *)
Definition timestamp (env : Env) : string :=
  BEFORE +:+ current_time_hour env +:+ AFTER.

Definition Title (title : string) : M unit :=
  emit (Titled ("ObfusPS - Obfuscator Tool | " +:+ title)).

(** [Clear] runs the console's own clear command, not the engine; it shows
    up as a console event. *)
Definition Clear : M unit := emit Cleared.

(** [sanitize_path]: [None] when the path is rejected. *)
Definition sanitize_path (env : Env) (path : string) : option string :=
  let path := Py.strip_char "'" (Py.strip_char "034" (Py.strip path)) in
  if bool_decide (path = "") then None
  else
    let abs_path := Path.abspath (cwd env) (Path.normpath path) in
    if Py.contains_char "000" abs_path then None else Some abs_path.

(** [validate_ps1_file] *)
Definition validate_ps1_file (env : Env) (path ts : string) : M bool :=
  fs ← get_fs;
  if negb (Fs.isfile env fs path) then
    print (ts +:+ " " +:+ ERROR +:+ " File not found: " +:+ path);;
    mret false
  else
    let lower := Py.lower path in
    if negb (Py.endswith lower ".ps1" || Py.endswith lower ".psm1") then
      print (ts +:+ " " +:+ ERROR +:+ " Not a PowerShell file (.ps1/.psm1): " +:+ path);;
      mret false
    else
      size ← try_except
                (file_size ← fs_query (λ fs, Fs.getsize env fs path); mret (Some file_size))
                is_OSError
                (λ _, print (ts +:+ " " +:+ ERROR +:+ " Cannot read file size: " +:+ path);;
                      mret None);
      match size with
      | None => mret false
      | Some file_size =>
          if bool_decide (file_size = 0) then
            print (ts +:+ " " +:+ ERROR +:+ " File is empty: " +:+ path);;
            mret false
          else if bool_decide (file_size > MAX_INPUT_SIZE) then
            print (ts +:+ " " +:+ ERROR +:+ " File too large (" +:+ Py.str file_size
                   +:+ " bytes, max " +:+ Py.str MAX_INPUT_SIZE +:+ "): " +:+ path);;
            mret false
          else mret true
      end.

(** The execution strategy: [('binary', path)] or [('go_run', project_root)]. *)
Inductive runner :=
  | Binary (path : string)
  | GoRun (project_root : string).

Definition binary_names (env : Env) : list string :=
  if win32 env then ["ObfusPS.exe"; "obfusps.exe"] else ["obfusps"].

(** Truth value of what [shutil.which] returns: [None] and the empty string
    are false. *)
Definition truthy (o : option string) : bool :=
  match o with
  | Some (String _ _) => true
  | _ => false
  end.

(** [find_obfusps_runner] *)
Definition find_obfusps_runner (env : Env) : M (option runner) :=
  fs ← get_fs;
  let script_dir := script_dir env in
  match List.find (λ name, Fs.isfile env fs (Path.join script_dir name)) (binary_names env) with
  | Some name => mret (Some (Binary (Path.abspath (cwd env) (Path.join script_dir name))))
  | None =>
      let obfusps_path := which env "obfusps" in
      if truthy obfusps_path then
        mret (Some (Binary (Path.abspath (cwd env) (default "" obfusps_path))))
      else
        let go_mod := Path.join script_dir "go.mod" in
        let cmd_main := Path.join (Path.join (Path.join script_dir "cmd") "obfusps") "main.go" in
        if Fs.isfile env fs go_mod && Fs.isfile env fs cmd_main && truthy (which env "go")
        then mret (Some (GoRun script_dir))
        else mret None
  end.

(** [ChoosePowerShellFile] *)
Definition ChoosePowerShellFile (env : Env) : M (list string) :=
  let ts := timestamp env in
  picked ← try_except
    (match picker env with
     | PickerUnavailable => mret None
     | PickerRaised e => raise e
     | Picked ps_files =>
         let chosen := omap (sanitize_path env) ps_files in
         match chosen with
         | [] => mret None
         | _ =>
             print (ts +:+ " " +:+ INPUT +:+ " Selected files -> " +:+ reset);;
             for_each chosen
               (λ p, print (ts +:+ " " +:+ ADD +:+ " " +:+ white +:+ p +:+ reset));;
             mret (Some chosen)
         end
     end)
    is_Exception
    (λ e, print (ts +:+ " " +:+ ERROR +:+ " File picker error: " +:+ exn_text e);;
          mret None);
  match picked with
  | Some chosen => mret chosen
  | None =>
      print (ts +:+ " " +:+ INFO +:+ " No selection. Enter paths manually?");;
      rep ← try_except
        (r ← input (ts +:+ " " +:+ INPUT
                    +:+ " Paths (comma-separated) or Enter to cancel -> " +:+ reset);
         mret (Some (Py.strip r)))
        is_KeyboardInterrupt
        (λ _, print "";; mret None);
      match rep with
      | None => mret []
      | Some rep =>
          if bool_decide (rep = "") then mret []
          else
            fold_each (Path.split_on "," "" rep) []
              (λ chosen raw,
                 match sanitize_path env raw with
                 | Some safe =>
                     print (ts +:+ " " +:+ ADD +:+ " " +:+ white +:+ safe +:+ reset);;
                     mret (chosen ++ [safe])
                 | None =>
                     if bool_decide (Py.strip raw = "") then mret chosen
                     else print (ts +:+ " " +:+ ERROR +:+ " Invalid path: " +:+ Py.strip raw);;
                          mret chosen
                 end)
      end
  end.

(** The command line and working directory for one engine call. *)
Definition engine_cmd (r : runner) (base_cmd : list string)
  : list string * option string :=
  match r with
  | GoRun value => (["go"; "run"; "./cmd/obfusps"] ++ base_cmd, Some value)
  | Binary value => ([value] ++ base_cmd, None)
  end.

(** Every non-blank line of the engine's stderr is shown as a diagnostic. *)
Definition print_stderr (ts stderr : string) : M unit :=
  if bool_decide (stderr = "") then mret tt
  else
    for_each (Py.splitlines (Py.strip stderr))
      (λ line,
         let line := Py.strip line in
         if bool_decide (line = "") then mret tt
         else print (ts +:+ " " +:+ INFO +:+ " " +:+ line)).

(** [_run_recommend] *)
Definition _run_recommend (env : Env) (r : runner) (file_path ts : string) : M unit :=
  try_except
    (let base_cmd := ["-i"; file_path; "-recommend"] in
     let '(cmd, dir) := engine_cmd r base_cmd in
     '(_, _, stderr) ← subprocess_run env cmd dir;
     print_stderr ts stderr)
    is_Exception
    (λ e, print (ts +:+ " " +:+ ERROR +:+ " Recommend error: " +:+ exn_text e)).

(** ** Mode selection (lines 323-331) *)

Definition use_auto_of (mode_input : string) : bool :=
  bool_decide (mode_input ∈ ["0"; ""; "auto"; "a"]).
Definition recommend_only_of (mode_input : string) : bool :=
  bool_decide (mode_input ∈ ["r"; "recommend"]).
Definition command_mode_of (mode_input : string) : bool :=
  bool_decide (mode_input ∈ ["c"; "cmd"; "command"]).

(** The settings shared by every file of a batch. *)
Record settings := {
  obfuscation_force : Z;
  profile : string;
  use_ast : bool;
  do_validate : bool;
  custom_flags : list string;
}.

Definition default_settings : settings :=
  {| obfuscation_force := 3; profile := "balanced"; use_ast := true;
     do_validate := false; custom_flags := [] |}.

(** ** Command mode: the user's raw flags (lines 415-439) *)

(** One turn of the loop that drops [-i] / [-o] and the token after it.
    The state is [(filtered, skip_next)]; [n] is [len(custom_flags)]. *)
Definition strip_step (ts : string) (n : Z) (st : list string * bool) (e : Z * string)
  : M (list string * bool) :=
  let '(filtered, skip_next) := st in
  let '(i, f) := e in
  if skip_next then mret (filtered, false)
  else if bool_decide (f ∈ ["-i"; "-o"]) && bool_decide (i + 1 < n) then
    print (ts +:+ " " +:+ INFO +:+ " " +:+ yellow +:+ "Ignoring " +:+ f
           +:+ " (auto-filled)" +:+ reset);;
    mret (filtered, true)
  else mret (filtered ++ [f], false).

Definition strip_io_flags (ts : string) (custom_flags : list string) : M (list string) :=
  st ← fold_each (enumerate 0 custom_flags) ([], false)
         (strip_step ts (Z.of_nat (length custom_flags)));
  mret st.1.

(** [None] when the prompt is interrupted and the session returns. *)
Definition command_prompt (env : Env) (ts : string) : M (option (list string)) :=
  print (ts +:+ " " +:+ INFO +:+ " " +:+ green +:+ "COMMAND mode" +:+ reset
         +:+ ": type raw ObfusPS flags. " +:+ yellow +:+ "-i" +:+ reset +:+ " and "
         +:+ yellow +:+ "-o" +:+ reset +:+ " are auto-filled.");;
  print (FLAGS_HELP env);;
  raw ← try_except
    (r ← input (ts +:+ " " +:+ INPUT +:+ " Flags -> " +:+ reset); mret (Some (Py.strip r)))
    is_KeyboardInterrupt
    (λ _, print "";; mret None);
  match raw with
  | None => mret None
  | Some raw_flags =>
      let custom_flags :=
        if bool_decide (raw_flags = "") then []
        else match shlex_split env raw_flags with
             | Some l => l
             | None => Py.split raw_flags
             end in
      custom_flags ← strip_io_flags ts custom_flags;
      print (ts +:+ " " +:+ INFO +:+ " Flags: " +:+ white
             +:+ (match custom_flags with
                  | [] => "(encoding only)"
                  | _ => Py.join " " custom_flags
                  end) +:+ reset);;
      mret (Some custom_flags)
  end.

(** ** Manual mode: level and profile menus (lines 458-514) *)

Definition spaces (n : nat) : string := String.concat "" (replicate n " ").

(** [{s:>n}] and [{s:<n}] *)
Definition rjust (n : nat) (s : string) : string := spaces (n - String.length s) +:+ s.
Definition ljust (n : nat) (s : string) : string := s +:+ spaces (n - String.length s).

Definition PROFILE_DESCS : gmap string string :=
  list_to_map
    [("safe", "compat / safe"); ("light", "light obfuscation");
     ("balanced", "balanced (default)"); ("heavy", "heavy obfuscation");
     ("stealth", "stealth / evasion"); ("paranoid", "maximum paranoia");
     ("redteam", "red-team ops"); ("blueteam", "blue-team / audit");
     ("size", "minimize size"); ("dev", "dev / debug")].

Definition print_profiles : M unit :=
  print ("    " +:+ red +:+ "Profiles:" +:+ reset);;
  for_each (enumerate 1 VALID_PROFILES)
    (λ '(i, pname),
       let desc := default pname (PROFILE_DESCS !! pname) in
       print ("    " +:+ red +:+ "[" +:+ white +:+ rjust 2 (Py.str i) +:+ red +:+ "] "
              +:+ white +:+ ljust 10 pname +:+ reset +:+ " (" +:+ desc +:+ ")"));;
  print "".

(** The profile chosen by the answer to the profile prompt. *)
Definition choose_profile (ts profile_input : string) : M string :=
  if bool_decide (profile_input = "") then mret "balanced"
  else if Py.isdigit profile_input then
    match Py.int profile_input with
    | None => raise (ValueError ("invalid literal for int(): " +:+ profile_input))
    | Some pidx =>
        if bool_decide (1 ≤ pidx) && bool_decide (pidx ≤ Z.of_nat (length VALID_PROFILES))
        then mret (default "balanced" (VALID_PROFILES !! Z.to_nat (pidx - 1)))
        else
          print (ts +:+ " " +:+ INFO +:+ " Invalid number " +:+ dquote +:+ profile_input
                 +:+ dquote +:+ ", using " +:+ dquote +:+ "balanced" +:+ dquote +:+ ".");;
          mret "balanced"
    end
  else if bool_decide (Py.lower profile_input ∈ VALID_PROFILES) then
    mret (Py.lower profile_input)
  else
    print (ts +:+ " " +:+ INFO +:+ " Unknown profile " +:+ dquote +:+ profile_input
           +:+ dquote +:+ ", using " +:+ dquote +:+ "balanced" +:+ dquote +:+ ".");;
    mret "balanced".

(** [None] when the session returns from inside the menus. *)
Definition manual_prompt (env : Env) (ts : string) : M (option settings) :=
  print (LEVEL_MENU env);;
  print_profiles;;
  level ← try_except
    (level_input ← input (ts +:+ " " +:+ INPUT
                          +:+ " Obfuscation level (1-5, default=3) -> " +:+ reset);
     let level_input := Py.strip level_input in
     if bool_decide (level_input = "") then mret (Some 3)
     else match Py.int level_input with
          | Some n => mret (Some n)
          | None => raise (ValueError ("invalid literal for int(): " +:+ level_input))
          end)
    is_ValueError_or_KeyboardInterrupt
    (λ _, print (ts +:+ " " +:+ ERROR +:+ " Invalid number.");; mret None);
  match level with
  | None => mret None
  | Some obfuscation_force =>
      if negb (bool_decide (obfuscation_force ∈ [1; 2; 3; 4; 5])) then
        print (ts +:+ " " +:+ ERROR +:+ " Choose 1 to 5.");;
        mret None
      else
        answer ← try_except
          (r ← input (ts +:+ " " +:+ INPUT +:+ " Profile (1-"
                      +:+ Py.str (Z.of_nat (length VALID_PROFILES))
                      +:+ " or name, default=3/balanced) -> " +:+ reset);
           mret (Some (Py.strip r)))
          is_KeyboardInterrupt
          (λ _, print "";; mret None);
        match answer with
        | None => mret None
        | Some profile_input =>
            profile ← choose_profile ts profile_input;
            a ← input (ts +:+ " " +:+ INPUT
                       +:+ " Use native AST when available? [Y/n] -> " +:+ reset);
            let use_ast := negb (bool_decide (Py.lower (Py.strip a) = "n")) in
            v ← input (ts +:+ " " +:+ INPUT
                       +:+ " Validate output after obfuscation? [y/N] -> " +:+ reset);
            let do_validate := bool_decide (Py.lower (Py.strip v) = "y") in
            mret (Some {| obfuscation_force := obfuscation_force; profile := profile;
                          use_ast := use_ast; do_validate := do_validate;
                          custom_flags := [] |})
        end
  end.

(** ** Working tree preparation (lines 516-541) *)

(** Pre-read the files that live inside the output folder. *)
Definition cache_step (env : Env) (ts abs_folder : string)
    (file_contents : gmap string (list Byte.byte)) (fp : string)
  : M (gmap string (list Byte.byte)) :=
  try_except
    (if Py.startswith (Path.abspath (cwd env) fp) (abs_folder +:+ Path.sep) then
       b ← fs_query (λ fs, Fs.read_bytes env fs fp);
       print (ts +:+ " " +:+ INFO +:+ " Cached: " +:+ white +:+ Path.basename fp
              +:+ reset +:+ " (inside output folder)");;
       mret (<[fp := b]> file_contents)
     else mret file_contents)
    is_Exception
    (λ e, print (ts +:+ " " +:+ ERROR +:+ " Cannot read " +:+ fp +:+ ": " +:+ exn_text e);;
          mret file_contents).

Definition cache_files (env : Env) (ts : string) (valid_files : list string)
  : M (gmap string (list Byte.byte)) :=
  let abs_folder := Path.abspath (cwd env) folder in
  fold_each valid_files ∅ (cache_step env ts abs_folder).

(** Remove the previous tree, then recreate the two folders; [false] when
    the session returns. *)
Definition reset_folders (env : Env) (ts : string) : M bool :=
  print (ts +:+ " " +:+ WAIT +:+ " Removing previous folders..");;
  removed ← try_except
    (fs_update (λ fs, Fs.rmtree_ignore_errors env fs folder);; mret true)
    is_Exception
    (λ e, print (ts +:+ " " +:+ ERROR +:+ " Cannot remove " +:+ folder +:+ ": "
                 +:+ exn_text e);;
          mret false);
  if negb removed then mret false
  else
    print (ts +:+ " " +:+ INFO +:+ " Previous folders removed.");;
    try_except
      (print (ts +:+ " " +:+ INFO +:+ " Creating folder: " +:+ white +:+ folder +:+ reset);;
       fs_update (λ fs, Fs.makedirs env fs script_folder);;
       fs_update (λ fs, Fs.makedirs env fs output_folder_1);;
       mret true)
      is_OSError
      (λ e, print (ts +:+ " " +:+ ERROR +:+ " Cannot create folders: " +:+ exn_text e);;
            mret false).

(** ** The batch loop (lines 543-631) *)

(** Output name of one file and the updated [used_names] counter table. *)
Definition assign_name (used_names : gmap string Z) (file_ps1 : string)
  : gmap string Z * string :=
  let base_name := Path.basename file_ps1 in
  let used_names :=
    match used_names !! base_name with
    | None => <[base_name := 0]> used_names
    | Some n => <[base_name := n + 1]> used_names
    end in
  let n := default 0 (used_names !! base_name) in
  if bool_decide (n = 0) then (used_names, base_name)
  else
    let '(base, ext) := Path.splitext base_name in
    (used_names, base +:+ "_" +:+ Py.str n +:+ ext).

(** The backup copy: from the cache when the file was pre-read, else copied. *)
Definition write_backup (env : Env) (file_contents : gmap string (list Byte.byte))
    (file_ps1 script_path : string) : M unit :=
  match file_contents !! file_ps1 with
  | Some b => fs_update (λ fs, Fs.write_bytes env fs script_path b)
  | None => fs_update (λ fs, Fs.copy2 env fs file_ps1 script_path)
  end.

(** The argument vector after the engine's name (lines 591-607). *)
Definition base_cmd (command_mode use_auto : bool) (s : settings)
    (base_name input_path output_path : string) : list string :=
  if command_mode then
    ["-i"; input_path; "-o"; output_path] ++ custom_flags s
  else if use_auto then
    ["-i"; input_path; "-o"; output_path; "-auto"; "-auto-retry";
     "-validate-stderr"; "ignore"; "-validate-timeout"; "60"]
  else
    let c := ["-i"; input_path; "-o"; output_path; "-level";
              Py.str (obfuscation_force s); "-profile"; profile s; "-context-aware"] in
    let c := if Py.endswith (Py.lower base_name) ".psm1" then c ++ ["-module-aware"] else c in
    let c := if use_ast s then c ++ ["-use-ast"] else c in
    let c := if do_validate s
             then c ++ ["-validate"; "-auto-retry"; "-validate-stderr"; "ignore";
                        "-validate-timeout"; "60"]
             else c in
    let c := if bool_decide (obfuscation_force s = 5) then c ++ ["-frag"; "profile=pro"] else c in
    c.

(** Engine call for one file (lines 578-629); [true] when the file is done,
    [false] when the loop moves on ([continue]). *)
Definition obfuscate (env : Env) (ts : string) (r : runner) (command_mode use_auto : bool)
    (s : settings) (base_name input_path output_path : string) : M bool :=
  try_except
    (let '(cmd, dir) :=
       engine_cmd r (base_cmd command_mode use_auto s base_name input_path output_path) in
     '(returncode, stdout, stderr) ← subprocess_run env cmd dir;
     print_stderr ts stderr;;
     if bool_decide (returncode ≠ 0) then
       let err_msg :=
         if negb (bool_decide (stderr = "")) then Py.strip stderr
         else if negb (bool_decide (stdout = "")) then Py.strip stdout
         else "unknown error" in
       print (ts +:+ " " +:+ ERROR +:+ " obfusps failed (exit " +:+ Py.str returncode +:+ ")");;
       mret false
     else mret true)
    is_Exception
    (λ e, print (ts +:+ " " +:+ ERROR +:+ " Error: " +:+ exn_text e);; mret false).

(** One turn of the loop over [enumerate(valid_files, 1)]. *)
Definition process_file (env : Env) (ts : string) (r : runner) (command_mode use_auto : bool)
    (s : settings) (file_contents : gmap string (list Byte.byte)) (total_files : Z)
    (used_names : gmap string Z) (e : Z * string) : M (gmap string Z) :=
  let '(idx, file_ps1) := e in
  let base_name := Path.basename file_ps1 in
  let '(used_names, file_name) := assign_name used_names file_ps1 in
  let script_path := Path.join script_folder file_name in
  let output_path := Path.join output_folder_1 file_name in
  print (ts +:+ " " +:+ INFO +:+ " File " +:+ Py.str idx +:+ "/" +:+ Py.str total_files
         +:+ ": " +:+ white +:+ file_name +:+ reset);;
  copied ← try_except
    (write_backup env file_contents file_ps1 script_path;;
     print (ts +:+ " " +:+ INFO +:+ " Copied: " +:+ white +:+ file_name +:+ reset
            +:+ " -> " +:+ script_path);;
     mret true)
    is_Exception
    (λ e, print (ts +:+ " " +:+ ERROR +:+ " Cannot copy " +:+ file_name +:+ ": "
                 +:+ exn_text e);;
          mret false);
  if negb copied then mret used_names
  else
    fs ← get_fs;
    let input_path := if Fs.isfile env fs file_ps1 then file_ps1 else script_path in
    print (ts +:+ " " +:+ WAIT +:+ " File " +:+ Py.str idx +:+ "/" +:+ Py.str total_files
           +:+ " - Obfuscating: " +:+ white +:+ file_name +:+ reset +:+ "..");;
    ok ← obfuscate env ts r command_mode use_auto s base_name input_path output_path;
    if negb ok then mret used_names
    else
      print (ts +:+ " " +:+ ADD +:+ " Done: " +:+ white +:+ output_path +:+ reset);;
      mret used_names.

Definition batch_loop (env : Env) (ts : string) (r : runner) (command_mode use_auto : bool)
    (s : settings) (file_contents : gmap string (list Byte.byte))
    (valid_files : list string) : M unit :=
  let total_files := Z.of_nat (length valid_files) in
  fold_each (enumerate 1 valid_files) ∅
    (process_file env ts r command_mode use_auto s file_contents total_files);;
  mret tt.

(** The closing report (lines 633-635). *)
Definition report (ts : string) (valid_files : list string) : M unit :=
  print (ts +:+ " " +:+ INFO +:+ " Obfuscation complete: "
         +:+ Py.str (Z.of_nat (length valid_files)) +:+ " file(s) -> " +:+ white
         +:+ output_folder_1 +:+ reset);;
  print (ts +:+ " " +:+ INFO +:+ " Scripts compatible with PowerShell 5.1 & 7.x");;
  print (ts +:+ " " +:+ INFO
         +:+ " Architecture: Go engine; -use-ast for native AST when pwsh available.").

(** Lines 516-635: cache, reset, loop, report. *)
Definition run_batch (env : Env) (ts : string) (r : runner) (command_mode use_auto : bool)
    (s : settings) (valid_files : list string) : M unit :=
  file_contents ← cache_files env ts valid_files;
  ready ← reset_folders env ts;
  if negb ready then mret tt
  else
    batch_loop env ts r command_mode use_auto s file_contents valid_files;;
    report ts valid_files.

(** ** The session *)

(** Lines 441-514: the settings of the batch, by mode.  [None] when the
    session returns (Recommend mode, or a prompt that gives up). *)
Definition collect_settings (env : Env) (ts : string) (r : runner)
    (use_auto recommend_only command_mode : bool) (flags : list string)
    (valid_files : list string) : M (option settings) :=
  if recommend_only then
    for_each valid_files (λ fp, _run_recommend env r fp ts);;
    try_except
      (input (ts +:+ " " +:+ INPUT +:+ " Press Enter to continue.. ");; mret tt)
      is_KeyboardInterrupt
      (λ _, print "");;
    mret None
  else if use_auto then
    print (ts +:+ " " +:+ INFO +:+ " " +:+ green +:+ "AUTO mode" +:+ reset
           +:+ ": engine will analyze script and auto-select best settings.");;
    mret (Some {| obfuscation_force := 3; profile := "balanced"; use_ast := true;
                  do_validate := true; custom_flags := flags |})
  else if command_mode then
    print (ts +:+ " " +:+ INFO +:+ " " +:+ green +:+ "COMMAND mode" +:+ reset
           +:+ ": using your custom flags.");;
    mret (Some {| obfuscation_force := 3; profile := "balanced"; use_ast := true;
                  do_validate := false; custom_flags := flags |})
  else
    manual_prompt env ts.

(** Lines 301-308: keep the files that validate. *)
Definition validate_files (env : Env) (ts : string) (files_ps1 : list string)
  : M (list string) :=
  fold_each files_ps1 []
    (λ (valid_files : list string) (fp : string),
       ok ← validate_ps1_file env fp ts;
       mret (if (ok : bool) then valid_files ++ [fp] else valid_files)).

(** Lines 310-635, once the engine is located and some file is valid. *)
Definition run_session (env : Env) (ts : string) (r : runner) (valid_files : list string)
  : M unit :=
  print (MODE_MENU env);;
  answer ← try_except
    (m ← input (ts +:+ " " +:+ INPUT
                +:+ " Mode (0=Auto/M=Manual/C=Command/R=Recommend, default=0) -> "
                +:+ reset);
     mret (Some (Py.lower (Py.strip m))))
    is_KeyboardInterrupt
    (λ _, print "";; mret None);
  match answer with
  | None => mret tt
  | Some mode_input =>
      let use_auto := use_auto_of mode_input in
      let recommend_only := recommend_only_of mode_input in
      let command_mode := command_mode_of mode_input in
      flags ← (if command_mode then command_prompt env ts else mret (Some ([] : list string)));
      match flags with
      | None => mret tt
      | Some flags =>
          chosen ← collect_settings env ts r use_auto recommend_only command_mode
                     flags valid_files;
          match chosen with
          | None => mret tt
          | Some s => run_batch env ts r command_mode use_auto s valid_files
          end
      end
  end.

(** [ObfusPS_Tool] *)
Definition ObfusPS_Tool (env : Env) : M unit :=
  Clear;;
  Title ("By: " +:+ by_);;
  print (BANNER env);;
  found ← find_obfusps_runner env;
  match found with
  | None =>
      let ts := timestamp env in
      print (ts +:+ " " +:+ ERROR +:+ " obfusps not found. Install Go and run from "
             +:+ "project root, or run: go install "
             +:+ "github.com/benzoXdev/obfusps/cmd/obfusps@latest");;
      try_except
        (input (ts +:+ " " +:+ INPUT +:+ " Press Enter to continue.. ");; mret tt)
        is_KeyboardInterrupt
        (λ _, print "")
  | Some r =>
      files_ps1 ← ChoosePowerShellFile env;
      match files_ps1 with
      | [] =>
          let ts := timestamp env in
          print (ts +:+ " " +:+ ERROR +:+ " No file selected.")
      | _ =>
          let ts := timestamp env in
          valid_files ← validate_files env ts files_ps1;
          match valid_files with
          | [] => print (ts +:+ " " +:+ ERROR +:+ " No valid file.")
          | _ => run_session env ts r valid_files
          end
      end
  end.

(** * Properties of the orchestrator *)

(** The notions the statements are written with, by topic, then sample
    worlds for concrete runs. *)

(** ** Worlds *)

(** The world after some console traffic: [ins] is what remains to be typed,
    [outs] what was sent to the console meanwhile. *)
Definition with_console (w : World) (ins : list console_in) (outs : list console_out)
  : World :=
  {| w_fs := w_fs w; w_stdin := ins; w_out := w_out w ++ outs; w_calls := w_calls w |}.

(** Two worlds that differ by console output only. *)
Definition only_printed (w w' : World) (outs : list console_out) : Prop :=
  w_fs w' = w_fs w ∧ w_stdin w' = w_stdin w ∧ w_calls w' = w_calls w
  ∧ w_out w' = w_out w ++ outs.

(** ** File validation *)

(** The path ends in the extension [e], whatever the case of its letters. *)
Definition has_extension (path e : string) : Prop :=
  ∃ stem ext, path = stem +:+ ext ∧ Py.lower ext = e.

(** The acceptance condition as the specification words it: an existing
    regular file, one of the two script extensions, a size within
    (0, 50 MiB]. *)
Definition spec_accepts (env : Env) (fs : gmap string node) (path : string) : Prop :=
  ∃ content,
    fs !! Fs.key env path = Some (File content)
    ∧ (has_extension path ".ps1" ∨ has_extension path ".psm1")
    ∧ 0 < Z.of_nat (length content) ≤ 50 * 1024 * 1024.

(** [kept P l l']: [l'] is [l] without the elements that fail [P], in order. *)
Inductive kept (P : string → Prop) : list string → list string → Prop :=
  | kept_nil : kept P [] []
  | kept_yes x l l' : P x → kept P l l' → kept P (x :: l) (x :: l')
  | kept_no x l l' : ¬ P x → kept P l l' → kept P (x :: l) l'.

(** The line a failed validation prints. *)
Definition rejection (ts reason path : string) : console_out :=
  Printed (ts +:+ " " +:+ ERROR +:+ reason +:+ path).

(** ** Engine resolution *)

(** A local engine binary named [name] exists next to the tool. *)
Definition local_binary (env : Env) (fs : gmap string node) (name : string) : bool :=
  Fs.isfile env fs (Path.join (script_dir env) name).

(** The source-run fallback is available: module manifest, entry point and
    toolchain. *)
Definition source_fallback (env : Env) (fs : gmap string node) : bool :=
  Fs.isfile env fs (Path.join (script_dir env) "go.mod")
  && Fs.isfile env fs
       (Path.join (Path.join (Path.join (script_dir env) "cmd") "obfusps") "main.go")
  && truthy (which env "go").

(** The diagnostic of a session that finds no engine. *)
Definition not_found_line (ts : string) : console_out :=
  Printed (ts +:+ " " +:+ ERROR +:+ " obfusps not found. Install Go and run from "
           +:+ "project root, or run: go install "
           +:+ "github.com/benzoXdev/obfusps/cmd/obfusps@latest").

(** ** Modes and argument vectors *)

(** The prompt of the mode menu. *)
Definition mode_prompt (ts : string) : string :=
  ts +:+ " " +:+ INPUT
  +:+ " Mode (0=Auto/M=Manual/C=Command/R=Recommend, default=0) -> " +:+ reset.

(** The session from the manual menus on: what [run_session] does in Manual
    mode once the mode prompt is answered. *)
Definition manual_session (env : Env) (ts : string) (r : runner) (valid_files : list string)
  : M unit :=
  chosen ← manual_prompt env ts;
  match chosen with
  | None => mret tt
  | Some s => run_batch env ts r false false s valid_files
  end.

(** The argument vector holds [flag] immediately followed by [value]. *)
Definition has_flag_pair (v : list string) (flag value : string) : Prop :=
  ∃ pre post, v = pre ++ [flag; value] ++ post.

(** The vector before the level-dependent tail. *)
Definition manual_head (s : settings) (base_name input_path output_path : string)
  : list string :=
  ["-i"; input_path; "-o"; output_path; "-level"; Py.str (obfuscation_force s);
   "-profile"; profile s; "-context-aware"]
  ++ (if Py.endswith (Py.lower base_name) ".psm1" then ["-module-aware"] else [])
  ++ (if use_ast s then ["-use-ast"] else [])
  ++ (if do_validate s
      then ["-validate"; "-auto-retry"; "-validate-stderr"; "ignore";
            "-validate-timeout"; "60"]
      else []).

(** What the stripping loop computes, by recursion on the token list: an
    [-i] or [-o] that has a token after it goes, with that token. *)
Fixpoint strip_pairs (flags : list string) : list string :=
  match flags with
  | [] => []
  | f :: rest =>
      match rest with
      | [] => [f]
      | _ :: rest' =>
          if bool_decide (f ∈ ["-i"; "-o"]) then strip_pairs rest'
          else f :: strip_pairs rest
      end
  end.

(** The lines the loop prints, one per stripped flag. *)
Fixpoint ignoring_lines (ts : string) (flags : list string) : list console_out :=
  match flags with
  | [] => []
  | f :: rest =>
      match rest with
      | [] => []
      | _ :: rest' =>
          if bool_decide (f ∈ ["-i"; "-o"]) then
            Printed (ts +:+ " " +:+ INFO +:+ " " +:+ yellow +:+ "Ignoring " +:+ f
                     +:+ " (auto-filled)" +:+ reset) :: ignoring_lines ts rest'
          else ignoring_lines ts rest
      end
  end.

(** Number of occurrences of a token in an argument vector. *)
Definition count_token (t : string) (v : list string) : nat :=
  length (filter (λ x, x = t) v).

(** ** Output names *)

(** One turn of [assign_names]. *)
Definition name_step (st : gmap string Z * list string) (fp : string)
  : gmap string Z * list string :=
  let '(used_names, file_name) := assign_name st.1 fp in
  (used_names, st.2 ++ [file_name]).

(** The output names of a batch, in order: what the loop assigns file by
    file through [assign_name]. *)
Definition assign_names (valid_files : list string) : list string :=
  (foldl name_step (∅, []) valid_files).2.

(** The name given to the [k]-th repetition of a base name ([k = 0] for its
    first occurrence): [_k] goes before the extension. *)
Definition suffixed (base_name : string) (k : Z) : string :=
  if bool_decide (k = 0) then base_name
  else
    let '(base, ext) := Path.splitext base_name in
    base +:+ "_" +:+ Py.str k +:+ ext.

(** How many of the files in [l] have the base name [b]. *)
Definition same_name_count (b : string) (l : list string) : nat :=
  length (filter (λ fp, Path.basename fp = b) l).

(** The counter table after the files [seen]: a base name seen [c > 0] times
    is at [c - 1]. *)
Definition counts_files (used_names : gmap string Z) (seen : list string) : Prop :=
  ∀ b, used_names !! b
       = if bool_decide (same_name_count b seen = 0%nat) then None
         else Some (Z.of_nat (same_name_count b seen) - 1).

(** The [-o] argument of an engine command line. *)
Fixpoint output_arg (cmd : list string) : option string :=
  match cmd with
  | flag :: rest =>
      if bool_decide (flag = "-o") then head rest else output_arg rest
  | [] => None
  end.

(** ** Engine runs *)

(** The diagnostic lines shown for the engine's stderr. *)
Definition diagnostic_lines (ts stderr : string) : list console_out :=
  if bool_decide (stderr = "") then []
  else
    omap (λ line,
            if bool_decide (Py.strip line = "") then None
            else Some (Printed (ts +:+ " " +:+ INFO +:+ " " +:+ Py.strip line)))
         (Py.splitlines (Py.strip stderr)).

(** The engine is never interrupted from the keyboard. *)
Definition uninterrupted (env : Env) : Prop :=
  ∀ cmd dir fs, engine env cmd dir fs ≠ Raised KeyboardInterrupt.

(** The engine leaves the entry at key [k] as it finds it. *)
Definition engine_keeps (env : Env) (k : string) : Prop :=
  ∀ cmd dir fs rc out err fs',
    engine env cmd dir fs = Exited rc out err fs' → fs' !! k = fs !! k.

(** ** The cache and the reset *)

(** The path lies underneath the working root, by the test the tool uses. *)
Definition inside_working_root (env : Env) (fp : string) : Prop :=
  Py.startswith (Path.abspath (cwd env) fp)
    (Path.abspath (cwd env) folder +:+ Path.sep) = true.

(** Every cached entry holds what reading its path yields in [fs]. *)
Definition cache_reflects (env : Env) (fs : gmap string node)
    (file_contents : gmap string (list Byte.byte)) : Prop :=
  ∀ p c, file_contents !! p = Some c → Fs.read_bytes env fs p = inr c.

(** What remains of a batch once the cache is filled (lines 528-635). *)
Definition after_cache (env : Env) (ts : string) (r : runner) (command_mode use_auto : bool)
    (s : settings) (file_contents : gmap string (list Byte.byte))
    (valid_files : list string) : M unit :=
  ready ← reset_folders env ts;
  if negb ready then mret tt
  else
    batch_loop env ts r command_mode use_auto s file_contents valid_files;;
    report ts valid_files.

(** ** The closing report *)

(** The three lines of the closing report for a batch of [n] files. *)
Definition report_lines (ts : string) (n : nat) : list console_out :=
  [Printed (ts +:+ " " +:+ INFO +:+ " Obfuscation complete: " +:+ Py.str (Z.of_nat n)
            +:+ " file(s) -> " +:+ white +:+ output_folder_1 +:+ reset);
   Printed (ts +:+ " " +:+ INFO +:+ " Scripts compatible with PowerShell 5.1 & 7.x");
   Printed (ts +:+ " " +:+ INFO
            +:+ " Architecture: Go engine; -use-ast for native AST when pwsh available.")].

(** The line that announces a produced file. *)
Definition is_done_line (ts : string) (o : console_out) : bool :=
  match o with
  | Printed s => Py.startswith s (ts +:+ " " +:+ ADD +:+ " Done: ")
  | _ => false
  end.

(** Number of files the batch produced, as the console shows it. *)
Definition produced (ts : string) (outs : list console_out) : nat :=
  length (filter (λ o, is_done_line ts o = true) outs).

(** The first line of the closing report: the third line from the end. *)
Definition summary_line (outs : list console_out) : option console_out :=
  rev outs !! 2%nat.

(** The claim as the specification words it: from the closing report one can
    read how many files were produced. *)
Definition report_tells_produced : Prop :=
  ∃ decode : console_out → nat,
    ∀ env ts r command_mode use_auto s valid_files w w' line,
      w_out w = [] →
      run_batch env ts r command_mode use_auto s valid_files w = (Val tt, w') →
      summary_line (w_out w') = Some line →
      decode line = produced ts (w_out w').

(** ** Searching the console *)

(** [needle in s] *)
Fixpoint contains (s needle : string) : bool :=
  Py.startswith s needle
  || match s with
     | String _ s' => contains s' needle
     | EmptyString => false
     end.

(** Some line sent to the console mentions [needle]. *)
Definition console_mentions (outs : list console_out) (needle : string) : bool :=
  existsb (λ o, match o with
                | Printed s | Prompted s | Titled s => contains s needle
                | Cleared => false
                end) outs.

(** ** A sample environment for concrete runs *)

Definition sample_engine (cmd : list string) (dir : option string) (fs : gmap string node)
  : proc_result :=
  Exited 0 "" "" fs.

Definition sample_env : Env :=
  {| win32 := false; cwd := "/w"; script_dir := "/app"; clock := "12:00:00";
     which := λ c, if bool_decide (c = "obfusps") then Some "/usr/bin/obfusps" else None;
     removable := λ _, true;
     engine := sample_engine;
     shlex_split := λ s, Some (Py.split s);
     picker := PickerUnavailable;
     BANNER := "ObfusPS"; MODE_MENU := "Mode"; FLAGS_HELP := "Flags"; LEVEL_MENU := "Levels" |}.

Definition sample_fs : gmap string node :=
  list_to_map
    [("/w", Dir); ("/home", Dir); ("/home/u", Dir);
     ("/home/u/a.ps1", File [Byte.x41]);
     ("/home/u/m.PSM1", File [Byte.x42; Byte.x43]);
     ("/home/u/empty.ps1", File []);
     ("/home/u/notes.txt", File [Byte.x44]);
     ("/w/ObfusPS", Dir); ("/w/ObfusPS/Script", Dir);
     ("/w/ObfusPS/Script/old.ps1", File [Byte.x45]);
     ("/w/ObfusPS/in.ps1", File [Byte.x46; Byte.x47])].

Definition sample_world (ins : list console_in) : World :=
  {| w_fs := sample_fs; w_stdin := ins; w_out := []; w_calls := [] |}.

Definition sample_ts : string := timestamp sample_env.

(** The sample environment with another engine, or with entries that resist
    removal. *)
Definition with_engine (env : Env)
    (e : list string → option string → gmap string node → proc_result) : Env :=
  {| win32 := win32 env; cwd := cwd env; script_dir := script_dir env; clock := clock env;
     which := which env; removable := removable env; engine := e;
     shlex_split := shlex_split env; picker := picker env; BANNER := BANNER env;
     MODE_MENU := MODE_MENU env; FLAGS_HELP := FLAGS_HELP env;
     LEVEL_MENU := LEVEL_MENU env |}.

Definition with_removable (env : Env) (f : string → bool) : Env :=
  {| win32 := win32 env; cwd := cwd env; script_dir := script_dir env; clock := clock env;
     which := which env; removable := f; engine := engine env;
     shlex_split := shlex_split env; picker := picker env; BANNER := BANNER env;
     MODE_MENU := MODE_MENU env; FLAGS_HELP := FLAGS_HELP env;
     LEVEL_MENU := LEVEL_MENU env |}.

(** An engine that exits with status 1 and the given streams. *)
Definition failing_engine (out err : string) (cmd : list string) (dir : option string)
    (fs : gmap string node) : proc_result :=
  Exited 1 out err fs.

(** An environment whose working root cannot be removed. *)
Definition stuck_root_env : Env :=
  with_removable sample_env (λ p, negb (bool_decide (p = "/w/ObfusPS"))).

(** Three scripts, two of them called [a.ps1], the third [a_1.ps1]. *)
Definition collision_fs : gmap string node :=
  list_to_map
    [("/w", Dir); ("/x", Dir); ("/y", Dir); ("/z", Dir);
     ("/x/a.ps1", File [Byte.x41]);
     ("/y/a.ps1", File [Byte.x42]);
     ("/z/a_1.ps1", File [Byte.x43])].

Definition collision_world : World :=
  {| w_fs := collision_fs;
     w_stdin := [Line "/x/a.ps1, /y/a.ps1, /z/a_1.ps1"; Line "0"];
     w_out := []; w_calls := [] |}.

(** An environment with no engine at all. *)
Definition bare_env : Env :=
  {| win32 := true; cwd := "/w"; script_dir := "/app"; clock := "12:00:00";
     which := λ _, None; removable := λ _, true; engine := sample_engine;
     shlex_split := λ s, Some (Py.split s); picker := Picked ["/home/u/a.ps1"];
     BANNER := "ObfusPS"; MODE_MENU := "Mode"; FLAGS_HELP := "Flags"; LEVEL_MENU := "Levels" |}.

(** The settings of an Auto batch. *)
Definition auto_settings : settings :=
  {| obfuscation_force := 3; profile := "balanced"; use_ast := true;
     do_validate := true; custom_flags := [] |}.

(** An Auto batch of one file in the sample world, under a given engine. *)
Definition sample_batch
    (e : list string → option string → gmap string node → proc_result)
  : res unit * World :=
  run_batch (with_engine sample_env e) sample_ts (Binary "/usr/bin/obfusps") false true
    auto_settings ["/home/u/a.ps1"] (sample_world []).

(** Two scripts called [a.ps1] and a module [b.psm1]. *)
Definition scenario_fs : gmap string node :=
  list_to_map
    [("/w", Dir); ("/x", Dir); ("/y", Dir);
     ("/x/a.ps1", File [Byte.x41]);
     ("/y/a.ps1", File [Byte.x42]);
     ("/x/b.psm1", File [Byte.x43])].

Definition scenario_world (ins : list console_in) : World :=
  {| w_fs := scenario_fs; w_stdin := ins; w_out := []; w_calls := [] |}.

(** * Proofs *)

(** ** Strings *)

Section strings.

Lemma app_nil_l_str (s : string) : "" +:+ s = s.
Proof. reflexivity. Qed.

Lemma app_cons_str (c : ascii) (a b : string) :
  String c a +:+ b = String c (a +:+ b).
Proof. reflexivity. Qed.

Lemma app_nil_r_str (s : string) : s +:+ "" = s.
Proof. induction s as [|c s IH]; [done|]. by rewrite app_cons_str, IH. Qed.

Lemma app_assoc_str (a b c : string) : (a +:+ b) +:+ c = a +:+ (b +:+ c).
Proof. induction a as [|x a IH]; [done|]. by rewrite !app_cons_str, IH. Qed.

Lemma rev_app_spec (s acc : string) :
  String.rev_app s acc = String.rev s +:+ acc.
Proof.
  unfold String.rev. revert acc.
  induction s as [|c s IH]; intros acc; [done|].
  cbn. rewrite IH, (IH (String c "")), app_assoc_str. done.
Qed.

Lemma rev_cons (c : ascii) (s : string) :
  String.rev (String c s) = String.rev s +:+ String c "".
Proof. unfold String.rev at 1. cbn. apply rev_app_spec. Qed.

Lemma rev_app_str (a b : string) :
  String.rev (a +:+ b) = String.rev b +:+ String.rev a.
Proof.
  induction a as [|c a IH].
  - rewrite app_nil_l_str. change (String.rev "") with "". by rewrite app_nil_r_str.
  - rewrite app_cons_str, !rev_cons, IH, app_assoc_str. done.
Qed.

Lemma rev_involutive_str (s : string) : String.rev (String.rev s) = s.
Proof.
  induction s as [|c s IH]; [done|].
  rewrite rev_cons, rev_app_str, IH. done.
Qed.

Lemma startswith_spec (s p : string) :
  Py.startswith s p = true ↔ ∃ t, s = p +:+ t.
Proof.
  revert s. induction p as [|a p IH]; intros s.
  - destruct s; cbn; (split; [|done]); intros _; eexists; reflexivity.
  - destruct s as [|b s]; cbn.
    + split; [done|]. by intros [t ?].
    + rewrite andb_true_iff, bool_decide_eq_true, IH. split.
      * intros [-> [t ->]]. by exists t.
      * intros [t Ht]. injection Ht as -> ->. eauto.
Qed.

Lemma endswith_spec (s e : string) :
  Py.endswith s e = true ↔ ∃ t, s = t +:+ e.
Proof.
  unfold Py.endswith. rewrite startswith_spec. split.
  - intros [t Ht]. exists (String.rev t).
    rewrite <- (rev_involutive_str s), Ht, rev_app_str, rev_involutive_str. done.
  - intros [t ->]. exists (String.rev t). apply rev_app_str.
Qed.

Lemma lower_app (a b : string) : Py.lower (a +:+ b) = Py.lower a +:+ Py.lower b.
Proof.
  induction a as [|c a IH]; [done|].
  rewrite app_cons_str. cbn. by rewrite IH, app_cons_str.
Qed.

(** A lowercased path ends in [e] exactly when the path ends in some
    spelling of [e]. *)
Lemma endswith_lower (path e : string) :
  Py.endswith (Py.lower path) e = true ↔ has_extension path e.
Proof.
  rewrite endswith_spec. unfold has_extension. split.
  - intros [t Ht]. revert path Ht.
    induction t as [|c t IH]; intros path Ht.
    + exists "", path. done.
    + destruct path as [|x path]; [done|].
      cbn in Ht. injection Ht as Hc Ht.
      destruct (IH _ Ht) as (stem & ext & -> & Hext).
      exists (String x stem), ext. done.
  - intros (stem & ext & -> & <-). exists (Py.lower stem). apply lower_app.
Qed.

End strings.

(** ** Running the monad *)

Lemma run_bind {A B} (m : M A) (f : A → M B) (w : World) :
  (m ≫= f) w = match m w with
               | (Val a, w') => f a w'
               | (Exc e, w') => (Exc e, w')
               end.
Proof. reflexivity. Qed.

Lemma run_print (s : string) (w : World) :
  print s w = (Val tt, with_console w (w_stdin w) [Printed s]).
Proof. reflexivity. Qed.

Lemma only_printed_refl (w : World) : only_printed w w [].
Proof. unfold only_printed. by rewrite app_nil_r. Qed.

Lemma only_printed_console (w : World) (outs : list console_out) :
  only_printed w (with_console w (w_stdin w) outs) outs.
Proof. done. Qed.

Lemma only_printed_trans (w1 w2 w3 : World) (o1 o2 : list console_out) :
  only_printed w1 w2 o1 → only_printed w2 w3 o2 → only_printed w1 w3 (o1 ++ o2).
Proof.
  intros (?&?&?&?) (?&?&?&?). unfold only_printed.
  rewrite app_assoc. repeat split; congruence.
Qed.

Lemma with_console_nil (w : World) : with_console w (w_stdin w) [] = w.
Proof. destruct w. unfold with_console. cbn. by rewrite app_nil_r. Qed.

Lemma with_console_app (w : World) (o1 o2 : list console_out) :
  with_console (with_console w (w_stdin w) o1) (w_stdin w) o2
  = with_console w (w_stdin w) (o1 ++ o2).
Proof. unfold with_console. cbn. by rewrite app_assoc. Qed.

Lemma run_fs_update (f : gmap string node → exn + gmap string node) (w : World) :
  fs_update f w = match f (w_fs w) with
                  | inl e => (Exc e, w)
                  | inr fs => (Val tt, {| w_fs := fs; w_stdin := w_stdin w;
                                          w_out := w_out w; w_calls := w_calls w |})
                  end.
Proof.
  unfold fs_update. rewrite run_bind. unfold fs_query.
  destruct (f (w_fs w)); reflexivity.
Qed.

(** ** File validation *)

Lemma script_extension_check (path : string) :
  Py.endswith (Py.lower path) ".ps1" || Py.endswith (Py.lower path) ".psm1" = true
  ↔ has_extension path ".ps1" ∨ has_extension path ".psm1".
Proof. by rewrite orb_true_iff, !endswith_lower. Qed.

Lemma validate_one (env : Env) (ts path : string) (w : World) :
  ∃ ok w' out,
    validate_ps1_file env path ts w = (Val ok, w')
    ∧ only_printed w w' out
    ∧ (ok = true ↔ spec_accepts env (w_fs w) path)
    ∧ (ok = true → out = [])
    ∧ (Fs.isfile env (w_fs w) path = false →
       out = [rejection ts " File not found: " path])
    ∧ (Fs.isfile env (w_fs w) path = true →
       ¬ (has_extension path ".ps1" ∨ has_extension path ".psm1") →
       out = [rejection ts " Not a PowerShell file (.ps1/.psm1): " path])
    ∧ (∀ content,
         w_fs w !! Fs.key env path = Some (File content) →
         has_extension path ".ps1" ∨ has_extension path ".psm1" →
         (length content = 0%nat → out = [rejection ts " File is empty: " path])
         ∧ (MAX_INPUT_SIZE < Z.of_nat (length content) →
            out = [rejection ts
                     (" File too large (" +:+ Py.str (Z.of_nat (length content))
                      +:+ " bytes, max " +:+ Py.str MAX_INPUT_SIZE +:+ "): ") path])).
Proof.
  unfold validate_ps1_file.
  rewrite run_bind. cbn [get_fs].
  unfold Fs.isfile, spec_accepts.
  destruct (w_fs w !! Fs.key env path) as [[content|]|] eqn:Hk; cbn [negb].
  2,3: eexists false, _, _; rewrite run_bind, run_print; cbn [mret M_ret];
       (split; [reflexivity|]); (split; [apply only_printed_console|]);
       repeat split; try done; try (by intros (? & ? & _)).
  destruct (Py.endswith (Py.lower path) ".ps1" || Py.endswith (Py.lower path) ".psm1")
    eqn:Hext; cbn [negb].
  - apply script_extension_check in Hext.
    rewrite run_bind. unfold try_except. rewrite run_bind.
    unfold fs_query, Fs.getsize. rewrite Hk. cbn [mret M_ret].
    destruct (bool_decide (Z.of_nat (length content) = 0)) eqn:H0.
    + apply bool_decide_eq_true in H0.
      eexists false, _, _. rewrite run_bind, run_print. cbn [mret M_ret].
      split; [reflexivity|]. split; [apply only_printed_console|].
      repeat split; try done.
      * intros (c & Hc & _ & Hsz). simplify_eq. lia.
      * intros Hm. unfold MAX_INPUT_SIZE in Hm. simplify_eq. lia.
    + apply bool_decide_eq_false in H0.
      destruct (bool_decide (Z.of_nat (length content) > MAX_INPUT_SIZE)) eqn:Hm.
      * apply bool_decide_eq_true in Hm.
        eexists false, _, _. rewrite run_bind, run_print. cbn [mret M_ret].
        split; [reflexivity|]. split; [apply only_printed_console|].
        repeat split; try done.
        -- intros (c & Hc & _ & Hsz). simplify_eq. unfold MAX_INPUT_SIZE in Hm. lia.
        -- intros ?. simplify_eq. lia.
        -- intros ?. simplify_eq. unfold rejection. by rewrite !app_assoc_str.
      * apply bool_decide_eq_false in Hm.
        eexists true, _, _. split; [reflexivity|]. split; [apply only_printed_refl|].
        repeat split; try done.
        -- intros _. exists content. unfold MAX_INPUT_SIZE in Hm. repeat split; [done|lia..].
        -- intros ?. simplify_eq. lia.
        -- intros ?. simplify_eq. lia.
  - assert (¬ (has_extension path ".ps1" ∨ has_extension path ".psm1")) as Hno.
    { rewrite <- script_extension_check, Hext. done. }
    eexists false, _, _. rewrite run_bind, run_print. cbn [mret M_ret].
    split; [reflexivity|]. split; [apply only_printed_console|].
    repeat split; try done.
    intros (c & _ & Hc & _). done.
Qed.

Lemma validate_files_from (env : Env) (ts : string) (files acc : list string) (w : World) :
  ∃ vs w',
    fold_each files acc
      (λ (valid_files : list string) (fp : string),
         ok ← validate_ps1_file env fp ts;
         mret (if (ok : bool) then valid_files ++ [fp] else valid_files)) w
    = (Val (acc ++ vs), w')
    ∧ w_fs w' = w_fs w ∧ w_stdin w' = w_stdin w ∧ w_calls w' = w_calls w
    ∧ kept (spec_accepts env (w_fs w)) files vs.
Proof.
  revert acc w. induction files as [|fp files IH]; intros acc w.
  - exists [], w. cbn. rewrite app_nil_r. repeat split; constructor.
  - cbn [fold_each]. rewrite run_bind, run_bind.
    destruct (validate_one env ts fp w) as (ok & w1 & out & -> & (Hfs & Hin & Hc & _) & Hok & _).
    cbn [mret M_ret].
    destruct (IH (if ok then acc ++ [fp] else acc) w1)
      as (vs & w' & -> & Hfs' & Hin' & Hc' & Hkept).
    rewrite Hfs in Hkept.
    destruct ok.
    + exists (fp :: vs), w'. rewrite <- app_assoc.
      repeat split; [congruence..|]. constructor; [by apply Hok|done].
    + exists vs, w'. repeat split; [congruence..|].
      constructor; [|done]. intros Hacc. by apply Hok in Hacc.
Qed.

(** C6: [validate_ps1_file] accepts a path exactly when it names an existing
    regular file with a [.ps1] or [.psm1] extension (in any case) whose size
    is positive and at most 50 MiB.  The checks run in that order and stop at
    the first failure: a missing file is reported as such whatever its name,
    a wrong extension is reported before the size is looked at, then the
    empty file, then the oversized one; each rejection prints one line that
    ends with the offending path, and an accepted path prints nothing.  The
    validation loop keeps exactly the accepted files, in order, and leaves
    the filesystem alone, so a rejected file does not stop the others. *)
Theorem C6_validate_accepts_script_files (env : Env) (ts path : string)
    (files : list string) (w : World) :
  (∃ ok w' out,
     validate_ps1_file env path ts w = (Val ok, w')
     ∧ only_printed w w' out
     ∧ (ok = true ↔ spec_accepts env (w_fs w) path)
     ∧ (ok = true → out = [])
     ∧ (Fs.isfile env (w_fs w) path = false →
        out = [rejection ts " File not found: " path])
     ∧ (Fs.isfile env (w_fs w) path = true →
        ¬ (has_extension path ".ps1" ∨ has_extension path ".psm1") →
        out = [rejection ts " Not a PowerShell file (.ps1/.psm1): " path])
     ∧ (∀ content,
          w_fs w !! Fs.key env path = Some (File content) →
          has_extension path ".ps1" ∨ has_extension path ".psm1" →
          (length content = 0%nat → out = [rejection ts " File is empty: " path])
          ∧ (MAX_INPUT_SIZE < Z.of_nat (length content) →
             out = [rejection ts
                      (" File too large (" +:+ Py.str (Z.of_nat (length content))
                       +:+ " bytes, max " +:+ Py.str MAX_INPUT_SIZE +:+ "): ") path])))
  ∧ (∃ valid_files w',
       validate_files env ts files w = (Val valid_files, w')
       ∧ w_fs w' = w_fs w ∧ w_calls w' = w_calls w
       ∧ kept (spec_accepts env (w_fs w)) files valid_files).
Proof.
  split; [apply validate_one|].
  destruct (validate_files_from env ts files [] w) as (vs & w' & Hrun & ? & ? & ? & ?).
  exists vs, w'. done.
Qed.

(** Concrete runs of the validator on the sample filesystem. *)
Example validate_accepts_sample :
  (validate_ps1_file sample_env "/home/u/m.PSM1" sample_ts (sample_world [])).1 = Val true.
Proof. vm_compute. reflexivity. Qed.

Example validate_rejects_empty_sample :
  validate_ps1_file sample_env "/home/u/empty.ps1" sample_ts (sample_world [])
  = (Val false,
     with_console (sample_world []) []
       [rejection sample_ts " File is empty: " "/home/u/empty.ps1"]).
Proof. vm_compute. reflexivity. Qed.

Example validate_rejects_text_sample :
  validate_ps1_file sample_env "/home/u/notes.txt" sample_ts (sample_world [])
  = (Val false,
     with_console (sample_world []) []
       [rejection sample_ts " Not a PowerShell file (.ps1/.psm1): " "/home/u/notes.txt"]).
Proof. vm_compute. reflexivity. Qed.

(** ** Mode selection *)

Lemma mode_flags_off (mode_input : string) :
  mode_input ∉ ["0"; ""; "auto"; "a"; "r"; "recommend"; "c"; "cmd"; "command"] →
  use_auto_of mode_input = false
  ∧ recommend_only_of mode_input = false
  ∧ command_mode_of mode_input = false.
Proof.
  intros Hnot. unfold use_auto_of, recommend_only_of, command_mode_of.
  repeat split; apply bool_decide_eq_false; intros Hin; apply Hnot;
    revert Hin; rewrite !elem_of_cons, !elem_of_nil; tauto.
Qed.

(** C10: whatever the user types at the mode prompt, if its trimmed,
    lowercased form is none of the Auto, Recommend and Command spellings,
    the session continues as a Manual one: no command prompt, no recommend
    pass, the level and profile menus, and the manual argument vector for
    every file. *)
Theorem C10_unrecognised_input_selects_manual (env : Env) (ts : string) (r : runner)
    (valid_files : list string) (raw : string) (rest : list console_in) (w : World) :
  w_stdin w = Line raw :: rest →
  Py.lower (Py.strip raw) ∉
    ["0"; ""; "auto"; "a"; "r"; "recommend"; "c"; "cmd"; "command"] →
  run_session env ts r valid_files w =
  manual_session env ts r valid_files
    (with_console w rest [Printed (MODE_MENU env); Prompted (mode_prompt ts)]).
Proof.
  intros Hin Hnot.
  destruct (mode_flags_off _ Hnot) as (Ha & Hr & Hc).
  unfold run_session, manual_session.
  rewrite run_bind, run_print.
  rewrite run_bind. unfold try_except at 1. rewrite run_bind.
  unfold input at 1. cbn [with_console w_stdin w_fs w_out w_calls].
  rewrite Hin. cbn [mret M_ret tail].
  rewrite Ha, Hr, Hc. rewrite run_bind. cbn [mret M_ret].
  unfold collect_settings, with_console, mode_prompt. cbn [w_stdin w_fs w_out w_calls].
  rewrite <- app_assoc. reflexivity.
Qed.

Lemma C10_unrecognised_input_witness :
  run_session sample_env sample_ts (Binary "/usr/bin/obfusps") ["/home/u/a.ps1"]
    (sample_world [Line "  Whatever "; Line "9"])
  = manual_session sample_env sample_ts (Binary "/usr/bin/obfusps") ["/home/u/a.ps1"]
      (with_console (sample_world [Line "  Whatever "; Line "9"]) [Line "9"]
         [Printed (MODE_MENU sample_env); Prompted (mode_prompt sample_ts)]).
Proof.
  apply (C10_unrecognised_input_selects_manual sample_env sample_ts
           (Binary "/usr/bin/obfusps") ["/home/u/a.ps1"] "  Whatever " [Line "9"]).
  - reflexivity.
  - apply (bool_decide_unpack _). vm_compute. exact I.
Defined.

(** The trimming is Python's: white space outside ASCII goes as well, so a
    no-break space before [C] still selects Command mode. *)
Example mode_answer_is_trimmed :
  let nbsp := String "194" (String "160" "") in
  let w := (ObfusPS_Tool sample_env
              (sample_world [Line "/home/u/a.ps1"; Line (nbsp +:+ "C" +:+ nbsp);
                             Line "-level 3"])).2 in
  Py.lower (Py.strip (nbsp +:+ "C" +:+ nbsp)) = "c"
  ∧ w_calls w
    = [(["/usr/bin/obfusps"; "-i"; "/home/u/a.ps1"; "-o";
         "ObfusPS/Script-Obfuscate/a.ps1"; "-level"; "3"], None)].
Proof. vm_compute. repeat split. Qed.

(** ** The manual argument vector *)

Lemma base_cmd_manual (s : settings) (base_name input_path output_path : string) :
  base_cmd false false s base_name input_path output_path
  = manual_head s base_name input_path output_path
    ++ (if bool_decide (obfuscation_force s = 5) then ["-frag"; "profile=pro"] else []).
Proof.
  unfold base_cmd, manual_head.
  destruct (Py.endswith _ _), (use_ast s), (do_validate s), (bool_decide _);
    reflexivity.
Qed.

Lemma manual_head_no_frag (s : settings) (base_name input_path output_path : string) :
  obfuscation_force s ∈ [1; 2; 3; 4; 5] →
  profile s ∈ VALID_PROFILES →
  input_path ≠ "-frag" → output_path ≠ "-frag" →
  "-frag" ∉ manual_head s base_name input_path output_path.
Proof.
  intros Hlevel Hprofile Hin Hout.
  assert (Py.str (obfuscation_force s) ≠ "-frag") as Hstr.
  { revert Hlevel. rewrite !elem_of_cons, elem_of_nil.
    intros [->|[->|[->|[->|[->|[]]]]]]; done. }
  assert (profile s ≠ "-frag") as Hp.
  { intros Heq. rewrite Heq in Hprofile. revert Hprofile.
    apply (bool_decide_unpack _). vm_compute. exact I. }
  unfold manual_head.
  destruct (Py.endswith _ _), (use_ast s), (do_validate s); cbn [app];
    rewrite !not_elem_of_cons; repeat split; try done; apply not_elem_of_nil.
Qed.

(** C8: in Manual mode the argument vector carries [-frag profile=pro]
    exactly when the level is 5; at levels 1 to 4 no [-frag] token occurs. *)
Theorem C8_fragmentation_flag_iff_level_5 (s : settings)
    (base_name input_path output_path : string) :
  obfuscation_force s ∈ [1; 2; 3; 4; 5] →
  profile s ∈ VALID_PROFILES →
  input_path ≠ "-frag" →
  output_path ≠ "-frag" →
  (has_flag_pair (base_cmd false false s base_name input_path output_path)
     "-frag" "profile=pro"
   ↔ obfuscation_force s = 5)
  ∧ (obfuscation_force s ∈ [1; 2; 3; 4] →
     "-frag" ∉ base_cmd false false s base_name input_path output_path).
Proof.
  intros Hlevel Hprofile Hin Hout.
  pose proof (manual_head_no_frag s base_name _ _ Hlevel Hprofile Hin Hout) as Hhead.
  rewrite base_cmd_manual.
  destruct (bool_decide (obfuscation_force s = 5)) eqn:H5.
  - apply bool_decide_eq_true in H5. split.
    + split; [done|]. intros _. eexists _, []. reflexivity.
    + rewrite H5. intros H. exfalso. revert H.
      rewrite !elem_of_cons, elem_of_nil. lia.
  - apply bool_decide_eq_false in H5. rewrite app_nil_r. split.
    + split; [|done]. intros (pre & post & Hv). exfalso. apply Hhead.
      rewrite Hv. apply elem_of_app. right. apply elem_of_cons. by left.
    + done.
Qed.

Lemma C8_fragmentation_flag_witness :
  (has_flag_pair
     (base_cmd false false
        {| obfuscation_force := 5; profile := "redteam"; use_ast := true;
           do_validate := false; custom_flags := [] |}
        "m.psm1" "/home/u/m.psm1" "ObfusPS/Script-Obfuscate/m.psm1")
     "-frag" "profile=pro"
   ↔ 5 = 5)
  ∧ (5 ∈ [1; 2; 3; 4] →
     "-frag" ∉ base_cmd false false
        {| obfuscation_force := 5; profile := "redteam"; use_ast := true;
           do_validate := false; custom_flags := [] |}
        "m.psm1" "/home/u/m.psm1" "ObfusPS/Script-Obfuscate/m.psm1").
Proof.
  apply (C8_fragmentation_flag_iff_level_5
           {| obfuscation_force := 5; profile := "redteam"; use_ast := true;
              do_validate := false; custom_flags := [] |}
           "m.psm1" "/home/u/m.psm1" "ObfusPS/Script-Obfuscate/m.psm1").
  - apply (bool_decide_unpack _). vm_compute. exact I.
  - apply (bool_decide_unpack _). vm_compute. exact I.
  - discriminate.
  - discriminate.
Defined.

Example manual_vector_level_3 :
  base_cmd false false default_settings "b.psm1" "/home/u/b.psm1"
    "ObfusPS/Script-Obfuscate/b.psm1"
  = ["-i"; "/home/u/b.psm1"; "-o"; "ObfusPS/Script-Obfuscate/b.psm1"; "-level"; "3";
     "-profile"; "balanced"; "-context-aware"; "-module-aware"; "-use-ast"].
Proof. vm_compute. reflexivity. Qed.

(** ** Command mode: stripping the user's [-i] / [-o] *)

Lemma strip_loop_run (ts : string) (n : Z) (rest : list string) (i : Z)
    (filtered : list string) (skip_next : bool) (w : World) :
  i + Z.of_nat (length rest) = n →
  ∃ b,
    fold_each (enumerate i rest) (filtered, skip_next) (strip_step ts n) w
    = (Val (filtered ++ strip_pairs (if skip_next then tail rest else rest), b),
       with_console w (w_stdin w)
         (ignoring_lines ts (if skip_next then tail rest else rest))).
Proof.
  remember (length rest) as k eqn:Hk. revert rest i filtered skip_next w Hk.
  induction (lt_wf k) as [k _ IH]. intros rest i filtered skip_next w Hk Hn.
  destruct rest as [|f rest].
  { exists skip_next. destruct skip_next; cbn; by rewrite app_nil_r, with_console_nil. }
  cbn [enumerate fold_each]. rewrite run_bind.
  destruct skip_next.
  - cbn [strip_step mret M_ret tail].
    cbn [length] in Hk, Hn.
    destruct (IH (length rest) ltac:(lia) rest (i + 1) filtered false w eq_refl ltac:(lia))
      as [b ->]. by exists b.
  - cbn [strip_step].
    destruct rest as [|g rest].
    + assert (bool_decide (i + 1 < n) = false) as ->.
      { apply bool_decide_eq_false. cbn [length] in Hk. lia. }
      rewrite andb_false_r. cbn [mret M_ret strip_pairs ignoring_lines].
      exists false. by rewrite with_console_nil.
    + assert (bool_decide (i + 1 < n) = true) as ->.
      { apply bool_decide_eq_true. cbn [length] in Hk. lia. }
      rewrite andb_true_r. cbn [strip_pairs ignoring_lines].
      cbn [length] in Hk, Hn.
      destruct (bool_decide (f ∈ ["-i"; "-o"])).
      * rewrite run_bind, run_print. cbn [mret M_ret].
        destruct (IH (S (length rest)) ltac:(lia) (g :: rest) (i + 1) filtered true
                    (with_console w (w_stdin w)
                       [Printed (ts +:+ " " +:+ INFO +:+ " " +:+ yellow +:+ "Ignoring "
                                 +:+ f +:+ " (auto-filled)" +:+ reset)])
                    eq_refl ltac:(cbn [length]; lia)) as [b ->].
        exists b. cbn [tail]. f_equal.
        change (w_stdin (with_console w (w_stdin w) _)) with (w_stdin w).
        by rewrite with_console_app.
      * cbn [mret M_ret].
        destruct (IH (S (length rest)) ltac:(lia) (g :: rest) (i + 1) (filtered ++ [f])
                    false w eq_refl ltac:(cbn [length]; lia)) as [b ->].
        exists b. by rewrite <- app_assoc.
Qed.

(** The stripping loop computes [strip_pairs] and reports every flag it
    strips. *)
Lemma strip_io_flags_run (ts : string) (flags : list string) (w : World) :
  strip_io_flags ts flags w
  = (Val (strip_pairs flags), with_console w (w_stdin w) (ignoring_lines ts flags)).
Proof.
  unfold strip_io_flags. rewrite run_bind.
  destruct (strip_loop_run ts (Z.of_nat (length flags)) flags 0 [] false w) as [b ->];
    [lia|]. reflexivity.
Qed.

(** An [-i] or [-o] is left in the list only as the last token typed. *)
Lemma strip_pairs_leftover (flags : list string) (x : string) :
  x ∈ ["-i"; "-o"] → x ∈ strip_pairs flags → last flags = Some x.
Proof.
  intros Hx. remember (length flags) as k eqn:Hk. revert flags Hk.
  induction (lt_wf k) as [k _ IH]. intros flags Hk.
  destruct flags as [|f [|g rest]]; cbn [strip_pairs].
  - by intros ?%elem_of_nil.
  - rewrite list_elem_of_singleton. by intros ->.
  - cbn [length] in Hk. destruct (bool_decide (f ∈ ["-i"; "-o"])) eqn:Hf.
    + intros Hin. apply (IH (length rest) ltac:(lia) rest eq_refl) in Hin.
      destruct rest; [done|]. exact Hin.
    + apply bool_decide_eq_false in Hf.
      rewrite elem_of_cons. intros [->|Hin]; [done|].
      by apply (IH (S (length rest)) ltac:(lia) (g :: rest) eq_refl) in Hin.
Qed.

Lemma count_token_absent (t : string) (v : list string) :
  t ∉ v → count_token t v = 0%nat.
Proof.
  unfold count_token. induction v as [|y v IH]; [done|].
  rewrite not_elem_of_cons. intros [Hne Hv].
  rewrite filter_cons_False by done. by apply IH.
Qed.

(** When the typed flags do not end in [-i] or [-o], the Command vector has
    exactly one [-i] and one [-o], the tool's own. *)
Lemma command_vector_single_io (s : settings) (typed : list string)
    (base_name input_path output_path : string) :
  custom_flags s = strip_pairs typed →
  (∀ x, x ∈ ["-i"; "-o"] → last typed ≠ Some x) →
  input_path ∉ ["-i"; "-o"] → output_path ∉ ["-i"; "-o"] →
  base_cmd true false s base_name input_path output_path
  = ["-i"; input_path; "-o"; output_path] ++ strip_pairs typed
  ∧ count_token "-i" (base_cmd true false s base_name input_path output_path) = 1%nat
  ∧ count_token "-o" (base_cmd true false s base_name input_path output_path) = 1%nat.
Proof.
  intros Hflags Hlast Hin Hout. unfold base_cmd. rewrite Hflags.
  split; [done|].
  assert (∀ x, x ∈ ["-i"; "-o"] → count_token x (strip_pairs typed) = 0%nat) as Hzero.
  { intros x Hx. apply count_token_absent. intros Hmem.
    by apply (Hlast x Hx), strip_pairs_leftover. }
  assert (input_path ≠ "-i" ∧ input_path ≠ "-o" ∧ output_path ≠ "-i" ∧ output_path ≠ "-o")
    as (? & ? & ? & ?).
  { revert Hin Hout. rewrite !not_elem_of_cons. tauto. }
  unfold count_token in *. split.
  - cbn [app]. rewrite filter_cons_True by done.
    rewrite filter_cons_False by done. rewrite filter_cons_False by done.
    rewrite filter_cons_False by done. cbn [length]. f_equal. apply Hzero.
    apply elem_of_cons. by left.
  - cbn [app]. rewrite filter_cons_False by done.
    rewrite filter_cons_False by done. rewrite filter_cons_True by done.
    rewrite filter_cons_False by done. cbn [length]. f_equal. apply Hzero.
    apply elem_of_cons. right. apply elem_of_cons. by left.
Qed.

Example strip_pairs_sample :
  (strip_io_flags sample_ts ["-i"; "foo"; "-level"; "3"; "-o"; "bar"] (sample_world [])).1
  = Val ["-level"; "3"].
Proof. vm_compute. reflexivity. Qed.

(** C2, at the failing input: the user types [-level 3 -i] at the flags
    prompt.  The filter leaves the trailing [-i] in place and reports
    nothing, so the engine's command line holds [-i] twice. *)
Theorem C2_trailing_flag_survives :
  let w := (ObfusPS_Tool sample_env
              (sample_world [Line "/home/u/a.ps1"; Line "c"; Line "-level 3 -i"])).2 in
  strip_io_flags sample_ts ["-level"; "3"; "-i"] (sample_world [])
  = (Val ["-level"; "3"; "-i"], sample_world [])
  ∧ w_calls w
    = [(["/usr/bin/obfusps"; "-i"; "/home/u/a.ps1"; "-o"; "ObfusPS/Script-Obfuscate/a.ps1";
         "-level"; "3"; "-i"], None)]
  ∧ count_token "-i"
      (base_cmd true false
         {| obfuscation_force := 3; profile := "balanced"; use_ast := true;
            do_validate := false; custom_flags := ["-level"; "3"; "-i"] |}
         "a.ps1" "/home/u/a.ps1" "ObfusPS/Script-Obfuscate/a.ps1") = 2%nat
  ∧ console_mentions (w_out w) "Ignoring" = false.
Proof. vm_compute. repeat split. Qed.

(** ** Output names *)

Lemma same_name_count_snoc (b : string) (l : list string) (fp : string) :
  same_name_count b (l ++ [fp])
  = (same_name_count b l + (if bool_decide (Path.basename fp = b) then 1 else 0))%nat.
Proof.
  unfold same_name_count. rewrite filter_app, length_app. f_equal.
  case_bool_decide.
  - by rewrite filter_cons_True.
  - by rewrite filter_cons_False.
Qed.

Lemma assign_name_step (used_names : gmap string Z) (seen : list string) (fp : string) :
  counts_files used_names seen →
  ∃ used_names',
    assign_name used_names fp
    = (used_names',
       suffixed (Path.basename fp) (Z.of_nat (same_name_count (Path.basename fp) seen)))
    ∧ counts_files used_names' (seen ++ [fp]).
Proof.
  intros Hcounts. unfold assign_name, suffixed.
  pose proof (Hcounts (Path.basename fp)) as Hb.
  destruct (bool_decide (same_name_count (Path.basename fp) seen = 0%nat)) eqn:Hzero.
  - apply bool_decide_eq_true in Hzero. rewrite Hb, Hzero.
    rewrite lookup_insert_eq. cbn [default].
    rewrite (bool_decide_eq_true_2 (0 = 0)) by done.
    cbn [Z.of_nat]. rewrite (bool_decide_eq_true_2 (0 = 0)) by done.
    eexists. split; [reflexivity|].
    intros b. rewrite same_name_count_snoc.
    destruct (decide (Path.basename fp = b)) as [<-|Hne].
    + rewrite lookup_insert_eq, Hzero.
      rewrite (bool_decide_eq_true_2 (Path.basename fp = Path.basename fp)) by done.
      reflexivity.
    + rewrite lookup_insert_ne, (bool_decide_eq_false_2 _ Hne), Nat.add_0_r by done.
      apply Hcounts.
  - apply bool_decide_eq_false in Hzero. rewrite Hb.
    rewrite lookup_insert_eq. cbn [default].
    replace (Z.of_nat (same_name_count (Path.basename fp) seen) - 1 + 1)
      with (Z.of_nat (same_name_count (Path.basename fp) seen)) by lia.
    rewrite !(bool_decide_eq_false_2
                (Z.of_nat (same_name_count (Path.basename fp) seen) = 0)) by lia.
    destruct (Path.splitext (Path.basename fp)) as [base ext].
    eexists. split; [reflexivity|].
    intros b. rewrite same_name_count_snoc.
    destruct (decide (Path.basename fp = b)) as [<-|Hne].
    + rewrite lookup_insert_eq.
      rewrite (bool_decide_eq_true_2 (Path.basename fp = Path.basename fp)) by done.
      rewrite bool_decide_eq_false_2 by lia. f_equal. lia.
    + rewrite lookup_insert_ne, (bool_decide_eq_false_2 _ Hne), Nat.add_0_r by done.
      apply Hcounts.
Qed.

Lemma assign_names_from (rest seen : list string) (used_names : gmap string Z)
    (names : list string) :
  counts_files used_names seen →
  length names = length seen →
  (∀ i fp, seen !! i = Some fp →
           names !! i
           = Some (suffixed (Path.basename fp)
                     (Z.of_nat (same_name_count (Path.basename fp) (take i seen))))) →
  ∀ i fp, (seen ++ rest) !! i = Some fp →
          (foldl name_step (used_names, names) rest).2 !! i
          = Some (suffixed (Path.basename fp)
                    (Z.of_nat (same_name_count (Path.basename fp)
                                 (take i (seen ++ rest))))).
Proof.
  revert seen used_names names.
  induction rest as [|x rest IH]; intros seen used_names names Hcounts Hlen Hnames.
  - rewrite app_nil_r. exact Hnames.
  - cbn [foldl]. unfold name_step at 2. cbn [fst snd].
    destruct (assign_name_step used_names seen x Hcounts) as (used' & -> & Hcounts').
    replace (seen ++ x :: rest) with ((seen ++ [x]) ++ rest) by by rewrite <- app_assoc.
    apply IH; [done|by rewrite !length_app, Hlen|].
    intros i fp Hi.
    destruct (decide (i < length seen)%nat) as [Hlt|Hge].
    + rewrite lookup_app_l in Hi by done.
      rewrite lookup_app_l by lia. rewrite take_app_le by lia. by apply Hnames.
    + rewrite lookup_app_r in Hi by lia.
      rewrite lookup_app_r by lia. rewrite Hlen.
      destruct (i - length seen)%nat as [|?] eqn:Hd; [|done].
      cbn in Hi. injection Hi as <-. cbn.
      replace i with (length seen) by lia.
      rewrite take_app_length. done.
Qed.

(** The naming rule: a file keeps its base name when no earlier file of the
    batch has it, and the file that repeats a base name for the [k]-th time
    gets [_k] before the extension. *)
Lemma assign_names_rule (valid_files : list string) (i : nat) (fp : string) :
  valid_files !! i = Some fp →
  assign_names valid_files !! i
  = Some (suffixed (Path.basename fp)
            (Z.of_nat (same_name_count (Path.basename fp) (take i valid_files)))).
Proof.
  intros Hi. unfold assign_names.
  apply (assign_names_from valid_files [] ∅ []); [|done| |done].
  - intros b. by rewrite lookup_empty.
  - intros j x Hj. by rewrite lookup_nil in Hj.
Qed.

Example assign_names_scenario :
  assign_names ["/x/a.ps1"; "/y/a.ps1"; "/x/b.psm1"] = ["a.ps1"; "a_1.ps1"; "b.psm1"].
Proof. vm_compute. reflexivity. Qed.

(** C3, at the failing input: a batch with two files called [a.ps1] and one
    called [a_1.ps1].  The second [a.ps1] is renamed [a_1.ps1], the name the
    third file keeps, so two files of the batch share one output name: the
    engine is given the same [-o] path twice and the backup of the second
    file is overwritten by the third. *)
Theorem C3_suffixed_name_collides :
  let w := (ObfusPS_Tool sample_env collision_world).2 in
  assign_names ["/x/a.ps1"; "/y/a.ps1"; "/z/a_1.ps1"] = ["a.ps1"; "a_1.ps1"; "a_1.ps1"]
  ∧ ¬ NoDup (assign_names ["/x/a.ps1"; "/y/a.ps1"; "/z/a_1.ps1"])
  ∧ omap (λ c, output_arg c.1) (w_calls w)
    = ["ObfusPS/Script-Obfuscate/a.ps1"; "ObfusPS/Script-Obfuscate/a_1.ps1";
       "ObfusPS/Script-Obfuscate/a_1.ps1"]
  ∧ w_fs w !! "/w/ObfusPS/Script/a_1.ps1" = Some (File [Byte.x43]).
Proof.
  split; [vm_compute; reflexivity|].
  split.
  { replace (assign_names _) with ["a.ps1"; "a_1.ps1"; "a_1.ps1"]
      by (vm_compute; reflexivity).
    rewrite !NoDup_cons, !elem_of_cons. intros (_ & Hnot & _). apply Hnot. by left. }
  split; vm_compute; reflexivity.
Qed.

(** ** Removal of the working root *)

(** The removal step swallows every failure: it never raises. *)
Lemma rmtree_ignore_errors_total (env : Env) (fs : gmap string node) (p : string) :
  ∃ fs', Fs.rmtree_ignore_errors env fs p = inr fs'.
Proof. unfold Fs.rmtree_ignore_errors. destruct (fs !! _) as [[]|]; eauto. Qed.

Lemma makedirs_error (env : Env) (fs : gmap string node) (p : string) (e : exn) :
  Fs.makedirs env fs p = inl e → is_OSError e = true.
Proof.
  unfold Fs.makedirs. generalize (Fs.ancestors (Fs.key env p)) as qs. intros qs.
  assert (∀ acc : exn + gmap string node,
            (∀ e', acc = inl e' → is_OSError e' = true) →
            foldl Fs.ensure_dir acc qs = inl e → is_OSError e = true) as Hgen.
  { induction qs as [|q qs IH]; intros acc Hacc; cbn [foldl].
    - apply Hacc.
    - apply IH. intros e'. unfold Fs.ensure_dir.
      destruct acc as [e0|fs0]; [apply Hacc|].
      destruct (fs0 !! q) as [[|]|]; by intros [= <-]. }
  apply Hgen. by intros e' [=].
Qed.

(** The reset always comes back: ready, or not ready after the diagnostic
    that the folders could not be created. *)
Lemma reset_folders_run (env : Env) (ts : string) (w : World) :
  ∃ ready w',
    reset_folders env ts w = (Val ready, w')
    ∧ (ready = false →
       ∃ e, last (w_out w')
            = Some (Printed (ts +:+ " " +:+ ERROR +:+ " Cannot create folders: " +:+ e))).
Proof.
  unfold reset_folders.
  rewrite run_bind, run_print, run_bind. unfold try_except at 1.
  rewrite run_bind, run_fs_update.
  destruct (rmtree_ignore_errors_total env (w_fs (with_console w (w_stdin w)
              [Printed (ts +:+ " " +:+ WAIT +:+ " Removing previous folders..")])) folder)
    as [fs1 ->].
  cbn [mret M_ret negb]. rewrite run_bind, run_print.
  unfold try_except. rewrite run_bind, run_print, run_bind, run_fs_update.
  unfold with_console. cbn [w_fs w_stdin w_out w_calls].
  destruct (Fs.makedirs env fs1 script_folder) as [e|fs2] eqn:Hmk1.
  { rewrite (makedirs_error _ _ _ _ Hmk1), run_bind, run_print. cbn [mret M_ret].
    eexists false, _. split; [reflexivity|]. intros _. exists (exn_text e).
    unfold with_console. cbn [w_out]. apply last_snoc. }
  rewrite run_bind, run_fs_update. cbn [w_fs w_stdin w_out w_calls].
  destruct (Fs.makedirs env fs2 output_folder_1) as [e|fs3] eqn:Hmk2.
  { rewrite (makedirs_error _ _ _ _ Hmk2), run_bind, run_print. cbn [mret M_ret].
    eexists false, _. split; [reflexivity|]. intros _. exists (exn_text e).
    unfold with_console. cbn [w_out]. apply last_snoc. }
  cbn [mret M_ret]. eexists true, _. split; [reflexivity|done].
Qed.

(** Whatever the removal could or could not remove, the reset goes on to
    announce that the previous folders are removed and to recreate them: the
    handler that would stop the session after a failed removal is never
    entered. *)
Lemma reset_folders_always_proceeds (env : Env) (ts : string) (w : World) :
  ∃ outs,
    w_out (reset_folders env ts w).2
    = w_out w
      ++ [Printed (ts +:+ " " +:+ WAIT +:+ " Removing previous folders..");
          Printed (ts +:+ " " +:+ INFO +:+ " Previous folders removed.");
          Printed (ts +:+ " " +:+ INFO +:+ " Creating folder: " +:+ white +:+ folder
                   +:+ reset)]
      ++ outs.
Proof.
  unfold reset_folders.
  rewrite run_bind, run_print, run_bind. unfold try_except at 1.
  rewrite run_bind, run_fs_update.
  destruct (rmtree_ignore_errors_total env (w_fs (with_console w (w_stdin w)
              [Printed (ts +:+ " " +:+ WAIT +:+ " Removing previous folders..")])) folder)
    as [fs1 ->].
  cbn [mret M_ret negb]. rewrite run_bind, run_print.
  unfold try_except. rewrite run_bind, run_print, run_bind, run_fs_update.
  unfold with_console. cbn [w_fs w_stdin w_out w_calls].
  destruct (Fs.makedirs env fs1 script_folder) as [e|fs2] eqn:Hmk1.
  { rewrite (makedirs_error _ _ _ _ Hmk1), run_bind, run_print. cbn [mret M_ret snd].
    unfold with_console. cbn [w_out]. eexists [_].
    rewrite <- !app_assoc. reflexivity. }
  rewrite run_bind, run_fs_update. cbn [w_fs w_stdin w_out w_calls].
  destruct (Fs.makedirs env fs2 output_folder_1) as [e|fs3] eqn:Hmk2.
  { rewrite (makedirs_error _ _ _ _ Hmk2), run_bind, run_print. cbn [mret M_ret snd].
    unfold with_console. cbn [w_out]. eexists [_].
    rewrite <- !app_assoc. reflexivity. }
  cbn [mret M_ret snd w_out]. exists []. rewrite <- !app_assoc. reflexivity.
Qed.

(** C4, at the failing input: the working root exists and its removal
    fails.  The session prints no removal diagnostic, announces that the
    previous folders were removed, and goes on to invoke the engine while
    the old root is still in place. *)
Theorem C4_unremovable_root_is_not_fatal :
  let w := (ObfusPS_Tool stuck_root_env
              (sample_world [Line "/home/u/a.ps1"; Line "0"])).2 in
  (∃ fs', Fs.rmtree_ignore_errors stuck_root_env sample_fs folder = inr fs'
          ∧ fs' !! "/w/ObfusPS" = Some Dir)
  ∧ console_mentions (w_out w) "Cannot remove" = false
  ∧ console_mentions (w_out w) "Previous folders removed." = true
  ∧ w_calls w
    = [(["/usr/bin/obfusps"; "-i"; "/home/u/a.ps1"; "-o"; "ObfusPS/Script-Obfuscate/a.ps1";
         "-auto"; "-auto-retry"; "-validate-stderr"; "ignore"; "-validate-timeout"; "60"],
        None)].
Proof.
  split.
  { destruct (rmtree_ignore_errors_total stuck_root_env sample_fs folder) as [fs' Hfs'].
    exists fs'. split; [done|].
    assert (match Fs.rmtree_ignore_errors stuck_root_env sample_fs folder with
            | inr m => m !! "/w/ObfusPS"
            | inl _ => None
            end = Some Dir) as H by (vm_compute; reflexivity).
    by rewrite Hfs' in H. }
  vm_compute. repeat split.
Qed.

(** ** Engine failures *)

Lemma print_stderr_run (ts stderr : string) (w : World) :
  print_stderr ts stderr w
  = (Val tt, with_console w (w_stdin w) (diagnostic_lines ts stderr)).
Proof.
  unfold print_stderr, diagnostic_lines.
  destruct (bool_decide (stderr = "")).
  { cbn [mret M_ret]. by rewrite with_console_nil. }
  generalize (Py.splitlines (Py.strip stderr)) as lines. intros lines. revert w.
  induction lines as [|line lines IH]; intros w.
  - cbn. by rewrite with_console_nil.
  - cbn [for_each omap list_omap]. rewrite run_bind.
    destruct (bool_decide (Py.strip line = "")).
    + cbn [mret M_ret]. apply IH.
    + rewrite run_print, IH.
      change (w_stdin (with_console w (w_stdin w) _)) with (w_stdin w).
      by rewrite with_console_app.
Qed.

(** A nonzero exit: the stderr diagnostics, then one failure line that
    carries the exit code only; the standard output plays no part. *)
Lemma obfuscate_nonzero_exit (env : Env) (ts : string) (r : runner)
    (command_mode use_auto : bool) (s : settings)
    (base_name input_path output_path : string) (w : World)
    (rc : Z) (stdout stderr : string) (fs' : gmap string node) :
  let call := engine_cmd r (base_cmd command_mode use_auto s base_name input_path
                              output_path) in
  engine env call.1 call.2 (w_fs w) = Exited rc stdout stderr fs' →
  rc ≠ 0 →
  obfuscate env ts r command_mode use_auto s base_name input_path output_path w
  = (Val false,
     {| w_fs := fs'; w_stdin := w_stdin w;
        w_out := w_out w ++ diagnostic_lines ts stderr
                 ++ [Printed (ts +:+ " " +:+ ERROR +:+ " obfusps failed (exit "
                              +:+ Py.str rc +:+ ")")];
        w_calls := w_calls w ++ [call] |}).
Proof.
  intros call Hengine Hrc. unfold obfuscate, try_except. fold call.
  destruct call as [cmd dir] eqn:Hcall. cbn [fst snd] in Hengine.
  rewrite run_bind. unfold subprocess_run. rewrite Hengine.
  rewrite run_bind, print_stderr_run.
  rewrite (bool_decide_eq_true_2 (rc ≠ 0)) by done.
  rewrite run_bind, run_print. cbn [mret M_ret]. unfold with_console.
  cbn [w_fs w_stdin w_out w_calls]. by rewrite <- app_assoc.
Qed.

Lemma write_bytes_error (env : Env) (fs : gmap string node) (p : string)
    (b : list Byte.byte) (e : exn) :
  Fs.write_bytes env fs p b = inl e → is_Exception e = true.
Proof.
  unfold Fs.write_bytes.
  destruct (fs !! Fs.key env p) as [[|]|];
    destruct (fs !! Path.dirname (Fs.key env p)) as [[|]|]; by intros [= <-].
Qed.

Lemma copy2_error (env : Env) (fs : gmap string node) (src dst : string) (e : exn) :
  Fs.copy2 env fs src dst = inl e → is_Exception e = true.
Proof.
  unfold Fs.copy2. destruct (_ && _); [by intros [= <-]|].
  destruct (Fs.read_bytes env fs src) as [e'|b] eqn:Hread.
  - intros [= <-]. unfold Fs.read_bytes in Hread.
    destruct (fs !! Fs.key env src) as [[|]|]; by simplify_eq.
  - apply write_bytes_error.
Qed.

Lemma write_backup_error (env : Env) (fc : gmap string (list Byte.byte))
    (fp script_path : string) (w w' : World) (e : exn) :
  write_backup env fc fp script_path w = (Exc e, w') → is_Exception e = true.
Proof.
  unfold write_backup. destruct (fc !! fp); rewrite run_fs_update.
  - destruct (Fs.write_bytes _ _ _ _) eqn:H; [|done].
    intros [= <- _]. by eapply write_bytes_error.
  - destruct (Fs.copy2 _ _ _ _) eqn:H; [|done].
    intros [= <- _]. by eapply copy2_error.
Qed.

Lemma obfuscate_total (env : Env) (ts : string) (r : runner)
    (command_mode use_auto : bool) (s : settings)
    (base_name input_path output_path : string) (w : World) :
  uninterrupted env →
  ∃ ok w', obfuscate env ts r command_mode use_auto s base_name input_path output_path w
           = (Val ok, w').
Proof.
  intros Hun. unfold obfuscate, try_except.
  destruct (engine_cmd r _) as [cmd dir].
  rewrite run_bind. unfold subprocess_run.
  destruct (engine env cmd dir (w_fs w)) as [rc out err fs'|e] eqn:Hengine.
  - rewrite run_bind, print_stderr_run.
    destruct (bool_decide (rc ≠ 0)).
    + rewrite run_bind, run_print. cbn [mret M_ret]. eauto.
    + cbn [mret M_ret]. eauto.
  - destruct e; try (cbn [is_Exception]; rewrite run_bind, run_print; cbn [mret M_ret]; eauto).
    by apply Hun in Hengine.
Qed.

(** One turn of the loop always hands over to the next: whatever fails for
    a file (the copy, the engine call, a nonzero exit) is reported and the
    turn ends normally. *)
Lemma process_file_total (env : Env) (ts : string) (r : runner)
    (command_mode use_auto : bool) (s : settings)
    (fc : gmap string (list Byte.byte)) (total : Z) (used_names : gmap string Z)
    (e : Z * string) (w : World) :
  uninterrupted env →
  ∃ used_names' w',
    process_file env ts r command_mode use_auto s fc total used_names e w
    = (Val used_names', w').
Proof.
  intros Hun. unfold process_file. destruct e as [idx file_ps1].
  destruct (assign_name used_names file_ps1) as [used' file_name].
  rewrite run_bind, run_print, run_bind. unfold try_except at 1.
  rewrite run_bind.
  destruct (write_backup env fc file_ps1 _ _) as [[[]|e] w1] eqn:Hcopy.
  - rewrite run_bind, run_print. cbn [mret M_ret negb].
    rewrite run_bind. cbn [get_fs]. rewrite run_bind, run_print, run_bind.
    match goal with
    | |- context [obfuscate ?a ?b ?c ?d ?e ?f ?g ?h ?i ?j] =>
        destruct (obfuscate_total a b c d e f g h i j Hun) as (ok & w2 & ->)
    end.
    destruct ok; cbn [negb mret M_ret]; [rewrite run_bind, run_print|]; eauto.
  - rewrite (write_backup_error _ _ _ _ _ _ _ Hcopy).
    rewrite run_bind, run_print. cbn [mret M_ret negb]. eauto.
Qed.

Lemma batch_loop_total (env : Env) (ts : string) (r : runner)
    (command_mode use_auto : bool) (s : settings)
    (fc : gmap string (list Byte.byte)) (valid_files : list string) (w : World) :
  uninterrupted env →
  ∃ w', batch_loop env ts r command_mode use_auto s fc valid_files w = (Val tt, w').
Proof.
  intros Hun. unfold batch_loop. rewrite run_bind.
  generalize (Z.of_nat (length valid_files)) as total.
  generalize (enumerate 1 valid_files) as files.
  generalize (∅ : gmap string Z) as used_names.
  intros used_names files total. revert used_names w.
  induction files as [|e files IH]; intros used_names w.
  - cbn [fold_each mret M_ret]. eauto.
  - cbn [fold_each]. rewrite run_bind.
    destruct (process_file_total env ts r command_mode use_auto s fc total used_names e w Hun)
      as (used' & w1 & ->).
    apply IH.
Qed.

(** C5, at the failing input: the engine exits with status 1, nothing on
    stderr and a message on stdout.  The only line printed for the failure
    is [obfusps failed (exit 1)]; the text of stdout is not shown, and with
    both streams empty no [unknown error] text is shown either. *)
Theorem C5_failure_line_ignores_streams :
  let run out :=
    obfuscate (with_engine sample_env (failing_engine out "")) sample_ts
      (Binary "/usr/bin/obfusps") false true default_settings "a.ps1" "/home/u/a.ps1"
      "ObfusPS/Script-Obfuscate/a.ps1" (sample_world []) in
  (run "boom").1 = Val false
  ∧ w_out (run "boom").2 = [Printed (sample_ts +:+ " " +:+ ERROR +:+ " obfusps failed (exit 1)")]
  ∧ console_mentions (w_out (run "boom").2) "boom" = false
  ∧ w_out (run "").2 = [Printed (sample_ts +:+ " " +:+ ERROR +:+ " obfusps failed (exit 1)")]
  ∧ console_mentions (w_out (run "").2) "unknown error" = false.
Proof. vm_compute. repeat split. Qed.

(** ** Engine resolution *)

Lemma find_first {A} (f : A → bool) (pre post : list A) (x : A) :
  Forall (λ y, f y = false) pre → f x = true → List.find f (pre ++ x :: post) = Some x.
Proof.
  induction 1 as [|y pre Hy _ IH]; intros Hx; cbn.
  - by rewrite Hx.
  - rewrite Hy. by apply IH.
Qed.

Lemma find_none {A} (f : A → bool) (l : list A) :
  Forall (λ y, f y = false) l → List.find f l = None.
Proof. induction 1 as [|y l Hy _ IH]; cbn; [done|]. by rewrite Hy. Qed.

Lemma truthy_Some (p : string) : p ≠ "" → truthy (Some p) = true.
Proof. by destruct p. Qed.

Lemma find_runner_run (env : Env) (w : World) :
  ∃ found, ∀ w', w_fs w' = w_fs w → find_obfusps_runner env w' = (Val found, w').
Proof.
  unfold find_obfusps_runner.
  destruct (List.find (λ name, Fs.isfile env (w_fs w) (Path.join (script_dir env) name))
              (binary_names env)) eqn:Hfind;
    [|destruct (truthy (which env "obfusps")) eqn:Hwhich;
      [|destruct (source_fallback env (w_fs w)) eqn:Hsrc; unfold source_fallback in Hsrc]];
    eexists; intros w' Hfs; rewrite run_bind; cbn [get_fs]; cbv zeta;
    rewrite ?Hfs, ?Hfind; cbv beta iota zeta; rewrite ?Hwhich, ?Hsrc; reflexivity.
Qed.

(** C7: the engine is looked for in a fixed order and the first match wins:
    a compiled binary next to the tool (on Windows [ObfusPS.exe] then
    [obfusps.exe], elsewhere [obfusps]), then [obfusps] on the search path,
    then the source-run fallback, which needs [go.mod], the entry point
    [cmd/obfusps/main.go] and [go] on the search path.  When nothing matches,
    the session prints the diagnostic that tells how to obtain the engine,
    waits for an acknowledgment and ends: the filesystem is as it was and no
    engine was invoked. *)
Theorem C7_engine_resolution_order (env : Env) (w : World) :
  ∃ found,
    find_obfusps_runner env w = (Val found, w)
    ∧ binary_names env = (if win32 env then ["ObfusPS.exe"; "obfusps.exe"] else ["obfusps"])
    ∧ (∀ pre name post,
         binary_names env = pre ++ name :: post →
         Forall (λ n, local_binary env (w_fs w) n = false) pre →
         local_binary env (w_fs w) name = true →
         found = Some (Binary (Path.abspath (cwd env) (Path.join (script_dir env) name))))
    ∧ (Forall (λ n, local_binary env (w_fs w) n = false) (binary_names env) →
       (∀ p, which env "obfusps" = Some p → p ≠ "" →
             found = Some (Binary (Path.abspath (cwd env) p)))
       ∧ (truthy (which env "obfusps") = false → source_fallback env (w_fs w) = true →
          found = Some (GoRun (script_dir env)))
       ∧ (truthy (which env "obfusps") = false → source_fallback env (w_fs w) = false →
          found = None))
    ∧ (found = None →
       ∃ res w' extra,
         ObfusPS_Tool env w = (res, w')
         ∧ w_fs w' = w_fs w
         ∧ w_calls w' = w_calls w
         ∧ w_out w' = w_out w
                      ++ [Cleared; Titled ("ObfusPS - Obfuscator Tool | By: " +:+ by_);
                          Printed (BANNER env); not_found_line (timestamp env);
                          Prompted (timestamp env +:+ " " +:+ INPUT
                                    +:+ " Press Enter to continue.. ")]
                      ++ extra
         ∧ (extra = [] ∨ extra = [Printed ""])).
Proof.
  destruct (find_runner_run env w) as (found & Hsame).
  pose proof (Hsame w eq_refl) as Hrun.
  exists found. split; [done|]. split; [done|].
  assert (∀ o, find_obfusps_runner env w = (Val o, w) → found = o) as Hdet.
  { intros o Ho. rewrite Hrun in Ho. by injection Ho. }
  split; [|split].
  - intros pre name post Hnames Hpre Hname. apply Hdet.
    unfold find_obfusps_runner. rewrite run_bind. cbn [get_fs]. cbv zeta.
    rewrite Hnames. unfold local_binary in Hpre, Hname.
    rewrite (find_first _ pre post name Hpre Hname). reflexivity.
  - intros Hnone. unfold local_binary in Hnone. repeat split.
    + intros p Hp Hne. apply Hdet.
      unfold find_obfusps_runner. rewrite run_bind. cbn [get_fs]. cbv zeta.
      rewrite (find_none _ _ Hnone); cbv beta iota zeta. rewrite Hp, (truthy_Some p Hne). reflexivity.
    + intros Hw Hsrc. apply Hdet.
      unfold find_obfusps_runner. rewrite run_bind. cbn [get_fs]. cbv zeta.
      rewrite (find_none _ _ Hnone); cbv beta iota zeta. rewrite Hw.
      unfold source_fallback in Hsrc.
      rewrite Hsrc. reflexivity.
    + intros Hw Hsrc. apply Hdet.
      unfold find_obfusps_runner. rewrite run_bind. cbn [get_fs]. cbv zeta.
      rewrite (find_none _ _ Hnone); cbv beta iota zeta. rewrite Hw.
      unfold source_fallback in Hsrc.
      rewrite Hsrc. reflexivity.
  - intros ->. unfold ObfusPS_Tool.
    rewrite run_bind. unfold Clear at 1, emit at 1.
    rewrite run_bind. unfold Title at 1, emit at 1.
    rewrite run_bind, run_print.
    rewrite run_bind, Hsame by done.
    rewrite run_bind, run_print.
    unfold try_except. rewrite run_bind. unfold input.
    cbn [with_console w_fs w_stdin w_out w_calls].
    destruct (w_stdin w) as [|[s|] rest]; cbn [mret M_ret is_KeyboardInterrupt tail].
    + eexists _, _, []. repeat split; [|by left]. cbn [w_out].
      rewrite app_nil_r, <- !app_assoc. reflexivity.
    + eexists _, _, []. repeat split; [|by left]. cbn [w_out].
      rewrite app_nil_r, <- !app_assoc. reflexivity.
    + rewrite run_print. eexists _, _, [Printed ""]. repeat split; [|by right].
      cbn [with_console w_out]. rewrite <- !app_assoc. reflexivity.
Qed.

Example bare_env_finds_nothing :
  (find_obfusps_runner bare_env (sample_world [])).1 = Val None.
Proof. vm_compute. reflexivity. Qed.

Example sample_env_finds_path_binary :
  (find_obfusps_runner sample_env (sample_world [])).1
  = Val (Some (Binary "/usr/bin/obfusps")).
Proof. vm_compute. reflexivity. Qed.

(** ** The cache and the reset *)

Lemma cache_step_run (env : Env) (ts abs_folder : string)
    (fc : gmap string (list Byte.byte)) (fp : string) (w : World) :
  ∃ w',
    cache_step env ts abs_folder fc fp w
    = (Val (if Py.startswith (Path.abspath (cwd env) fp) (abs_folder +:+ Path.sep)
            then match Fs.read_bytes env (w_fs w) fp with
                 | inr b => <[fp := b]> fc
                 | inl _ => fc
                 end
            else fc), w')
    ∧ w_fs w' = w_fs w ∧ w_stdin w' = w_stdin w ∧ w_calls w' = w_calls w.
Proof.
  unfold cache_step, try_except.
  destruct (Py.startswith _ _).
  - rewrite run_bind. unfold fs_query.
    destruct (Fs.read_bytes env (w_fs w) fp) as [e|b] eqn:Hread.
    + assert (is_Exception e = true) as ->.
      { unfold Fs.read_bytes in Hread. destruct (w_fs w !! _) as [[]|]; by simplify_eq. }
      rewrite run_bind, run_print. eexists. split; [reflexivity|done].
    + rewrite run_bind, run_print. eexists. split; [reflexivity|done].
  - eexists. split; [reflexivity|done].
Qed.

Lemma cache_files_from (env : Env) (ts abs_folder : string) (files : list string)
    (fc : gmap string (list Byte.byte)) (w : World) :
  cache_reflects env (w_fs w) fc →
  ∃ fc' w',
    fold_each files fc (cache_step env ts abs_folder) w = (Val fc', w')
    ∧ w_fs w' = w_fs w ∧ w_stdin w' = w_stdin w ∧ w_calls w' = w_calls w
    ∧ cache_reflects env (w_fs w) fc'
    ∧ (∀ p c, fc !! p = Some c → fc' !! p = Some c)
    ∧ (∀ fp b, fp ∈ files →
         Py.startswith (Path.abspath (cwd env) fp) (abs_folder +:+ Path.sep) = true →
         Fs.read_bytes env (w_fs w) fp = inr b →
         fc' !! fp = Some b).
Proof.
  revert fc w. induction files as [|x files IH]; intros fc w Hfc.
  - exists fc, w. repeat split; try done. intros fp b Hin. by apply elem_of_nil in Hin.
  - cbn [fold_each]. rewrite run_bind.
    destruct (cache_step_run env ts abs_folder fc x w) as (w1 & -> & Hfs & Hin & Hcalls).
    set (fc1 := if Py.startswith _ _ then _ else _).
    assert (cache_reflects env (w_fs w) fc1) as Hfc1.
    { subst fc1. destruct (Py.startswith _ _); [|done].
      destruct (Fs.read_bytes env (w_fs w) x) as [e|b] eqn:Hread; [done|].
      intros p c. destruct (decide (x = p)) as [->|Hne].
      - rewrite lookup_insert_eq. by intros [= <-].
      - rewrite lookup_insert_ne by done. apply Hfc. }
    assert (∀ p c, fc !! p = Some c → fc1 !! p = Some c) as Hmono.
    { subst fc1. intros p c Hp. destruct (Py.startswith _ _); [|done].
      destruct (Fs.read_bytes env (w_fs w) x) as [e|b] eqn:Hread; [done|].
      destruct (decide (x = p)) as [->|Hne].
      - rewrite lookup_insert_eq. apply Hfc in Hp. congruence.
      - by rewrite lookup_insert_ne. }
    rewrite <- Hfs in Hfc1.
    destruct (IH fc1 w1 Hfc1) as (fc' & w' & Hrun & Hfs' & Hin' & Hcalls' & Hfc' & Hmono' & Hall).
    exists fc', w'. rewrite Hfs in *.
    split; [done|]. repeat split; [congruence..|done| |].
    + intros p c Hp. by apply Hmono', Hmono.
    + intros fp b Hfp Hunder Hread. apply elem_of_cons in Hfp as [->|Hfp].
      * apply Hmono'. subst fc1. rewrite Hunder, Hread. apply lookup_insert_eq.
      * by apply Hall.
Qed.

Lemma ensure_dir_keeps_non_file (acc : exn + gmap string node) (q k : string)
    (fs' : gmap string node) :
  (∀ fs, acc = inr fs → ∀ c, fs !! k ≠ Some (File c)) →
  Fs.ensure_dir acc q = inr fs' → ∀ c, fs' !! k ≠ Some (File c).
Proof.
  intros Hacc. unfold Fs.ensure_dir.
  destruct acc as [e|fs]; [done|].
  destruct (fs !! q) as [[|]|] eqn:Hq; [done| |]; intros [= <-] c.
  - by apply Hacc.
  - destruct (decide (q = k)) as [->|Hne].
    + by rewrite lookup_insert_eq.
    + rewrite lookup_insert_ne by done. by apply Hacc.
Qed.

Lemma makedirs_keeps_non_file (env : Env) (fs fs' : gmap string node) (p k : string) :
  (∀ c, fs !! k ≠ Some (File c)) →
  Fs.makedirs env fs p = inr fs' → ∀ c, fs' !! k ≠ Some (File c).
Proof.
  unfold Fs.makedirs. generalize (Fs.ancestors (Fs.key env p)) as qs.
  intros qs. revert fs fs'.
  assert (∀ (acc : exn + gmap string node) fs',
            (∀ fs, acc = inr fs → ∀ c, fs !! k ≠ Some (File c)) →
            foldl Fs.ensure_dir acc qs = inr fs' → ∀ c, fs' !! k ≠ Some (File c)) as Hgen.
  { induction qs as [|q qs IH]; intros acc fs' Hacc; cbn [foldl].
    - intros ->. by apply Hacc.
    - apply IH. intros fs1 Hfs1. by eapply ensure_dir_keeps_non_file. }
  intros fs fs' Hfs. apply Hgen. by intros ? [= <-].
Qed.

Lemma rmtree_removes_inside (env : Env) (fs fs' : gmap string node) (p k : string) :
  (∀ q, removable env q = true) →
  fs !! Fs.key env p = Some Dir →
  Fs.within (Fs.key env p) k = true →
  Fs.rmtree_ignore_errors env fs p = inr fs' →
  fs' !! k = None.
Proof.
  intros Hrem Hdir Hin. unfold Fs.rmtree_ignore_errors. rewrite Hdir.
  intros [= <-]. apply map_lookup_filter_None. right. intros x _ [Hout|Hstuck].
  - cbn in Hout. congruence.
  - destruct Hstuck as (q & y & _ & _ & Hq). by rewrite Hrem in Hq.
Qed.

Lemma reset_folders_removes_original (env : Env) (ts : string) (w w' : World) (fp : string) :
  (∀ q, removable env q = true) →
  w_fs w !! Fs.key env folder = Some Dir →
  Fs.within (Fs.key env folder) (Fs.key env fp) = true →
  reset_folders env ts w = (Val true, w') →
  Fs.isfile env (w_fs w') fp = false.
Proof.
  intros Hrem Hdir Hin. unfold reset_folders.
  rewrite run_bind, run_print, run_bind. unfold try_except at 1.
  rewrite run_bind, run_fs_update. cbn [with_console w_fs w_stdin w_out w_calls].
  destruct (Fs.rmtree_ignore_errors env (w_fs w) folder) as [e|fs1] eqn:Hrm.
  { destruct (rmtree_ignore_errors_total env (w_fs w) folder) as [? ?]. congruence. }
  cbn [mret M_ret negb]. rewrite run_bind, run_print.
  unfold try_except. rewrite run_bind, run_print, run_bind, run_fs_update.
  cbn [with_console w_fs w_stdin w_out w_calls].
  assert (fs1 !! Fs.key env fp = None) as Hgone.
  { eapply rmtree_removes_inside; [done..|exact Hin|done]. }
  destruct (Fs.makedirs env fs1 script_folder) as [e|fs2] eqn:Hmk1.
  { destruct (is_OSError e); [|discriminate].
    rewrite run_bind, run_print. cbn [mret M_ret]. discriminate. }
  rewrite run_bind, run_fs_update. cbn [w_fs w_stdin w_out w_calls].
  destruct (Fs.makedirs env fs2 output_folder_1) as [e|fs3] eqn:Hmk2.
  { destruct (is_OSError e); [|discriminate].
    rewrite run_bind, run_print. cbn [mret M_ret]. discriminate. }
  cbn [mret M_ret]. intros [= <-]. cbn [w_fs].
  unfold Fs.isfile.
  destruct (fs3 !! Fs.key env fp) as [[c|]|] eqn:Hk; [|done..].
  exfalso. eapply (makedirs_keeps_non_file env fs2 fs3); [|done..].
  eapply (makedirs_keeps_non_file env fs1 fs2); [|done].
  intros c'. by rewrite Hgone.
Qed.

Lemma write_backup_from_cache (env : Env) (fc : gmap string (list Byte.byte))
    (fp script_path : string) (b : list Byte.byte) (w : World) :
  fc !! fp = Some b →
  w_fs w !! Path.dirname (Fs.key env script_path) = Some Dir →
  w_fs w !! Fs.key env script_path ≠ Some Dir →
  write_backup env fc fp script_path w
  = (Val tt, {| w_fs := <[Fs.key env script_path := File b]> (w_fs w);
                w_stdin := w_stdin w; w_out := w_out w; w_calls := w_calls w |}).
Proof.
  intros Hfc Hparent Htarget. unfold write_backup. rewrite Hfc, run_fs_update.
  unfold Fs.write_bytes. rewrite Hparent.
  destruct (w_fs w !! Fs.key env script_path) as [[|]|]; done.
Qed.

Lemma obfuscate_fs (env : Env) (ts : string) (r : runner)
    (command_mode use_auto : bool) (s : settings)
    (base_name input_path output_path : string) (w : World) (k : string) :
  engine_keeps env k →
  w_fs (obfuscate env ts r command_mode use_auto s base_name input_path output_path w).2
    !! k = w_fs w !! k.
Proof.
  intros Hkeep. unfold obfuscate, try_except.
  destruct (engine_cmd r _) as [cmd dir].
  rewrite run_bind. unfold subprocess_run.
  destruct (engine env cmd dir (w_fs w)) as [rc out err fs'|e] eqn:Hengine.
  - rewrite run_bind, print_stderr_run.
    apply Hkeep in Hengine.
    destruct (bool_decide (rc ≠ 0)); [rewrite run_bind, run_print|]; exact Hengine.
  - destruct (is_Exception e); [rewrite run_bind, run_print|]; reflexivity.
Qed.

(** One turn of the loop on a cached file: the backup path holds the cached
    bytes when the turn ends, provided the backup folder is in place and the
    engine leaves the backup alone. *)
Lemma process_file_backs_up_cache (env : Env) (ts : string) (r : runner)
    (command_mode use_auto : bool) (s : settings)
    (fc : gmap string (list Byte.byte)) (total idx : Z) (used_names : gmap string Z)
    (fp : string) (b : list Byte.byte) (w : World) :
  let script_path := Path.join script_folder (assign_name used_names fp).2 in
  fc !! fp = Some b →
  w_fs w !! Path.dirname (Fs.key env script_path) = Some Dir →
  w_fs w !! Fs.key env script_path ≠ Some Dir →
  engine_keeps env (Fs.key env script_path) →
  w_fs (process_file env ts r command_mode use_auto s fc total used_names (idx, fp) w).2
    !! Fs.key env script_path = Some (File b).
Proof.
  intros script_path Hfc Hparent Htarget Hkeep. unfold process_file.
  subst script_path. destruct (assign_name used_names fp) as [used' file_name].
  cbn [snd] in *.
  rewrite run_bind, run_print, run_bind. unfold try_except at 1.
  rewrite run_bind.
  rewrite (write_backup_from_cache env fc fp _ b) by done.
  rewrite run_bind, run_print. cbn [mret M_ret negb].
  rewrite run_bind. cbn [get_fs]. rewrite run_bind, run_print, run_bind.
  match goal with
  | |- context [obfuscate ?a1 ?a2 ?a3 ?a4 ?a5 ?a6 ?a7 ?a8 ?a9 ?a10] =>
      pose proof (obfuscate_fs a1 a2 a3 a4 a5 a6 a7 a8 a9 a10 _ Hkeep) as Hfs;
      destruct (obfuscate a1 a2 a3 a4 a5 a6 a7 a8 a9 a10) as [[ok|err] w2]
  end; cbn [fst snd] in Hfs |- *; unfold with_console in Hfs; cbn [w_fs] in Hfs.
  - destruct ok; cbn [negb mret M_ret]; [rewrite run_bind, run_print|];
      cbn [mret M_ret snd]; unfold with_console; cbn [w_fs]; rewrite Hfs;
      apply lookup_insert_eq.
  - cbn [snd]. rewrite Hfs. apply lookup_insert_eq.
Qed.

(** A whole session on a file that lives inside the working root and is
    typed with its plain absolute path: the file is cached, the original is
    gone after the reset, the backup holds its bytes, and the engine is
    pointed at the backup. *)
Example session_on_file_inside_root :
  let w := (ObfusPS_Tool sample_env
              (sample_world [Line "/w/ObfusPS/in.ps1"; Line "0"])).2 in
  console_mentions (w_out w) "Cached: " = true
  ∧ w_fs w !! "/w/ObfusPS/in.ps1" = None
  ∧ w_fs w !! "/w/ObfusPS/Script/in.ps1" = Some (File [Byte.x46; Byte.x47])
  ∧ w_calls w
    = [(["/usr/bin/obfusps"; "-i"; "ObfusPS/Script/in.ps1"; "-o";
         "ObfusPS/Script-Obfuscate/in.ps1"; "-auto"; "-auto-retry"; "-validate-stderr";
         "ignore"; "-validate-timeout"; "60"], None)].
Proof. vm_compute. repeat split. Qed.

(** C1, at the failing input: the working directory is [/w], the script
    [/w/ObfusPS/in.ps1] exists inside the working root, and the user types
    its path with two leading slashes, [//w/ObfusPS/in.ps1], then picks Auto
    mode.  The path is sanitised to itself ([abspath] keeps the two
    slashes), names the file that lies underneath the working root, and
    passes validation.  But the test that decides what is cached compares
    spellings: the path does not start with [/w/ObfusPS/], so nothing is
    cached and no "Cached" line is printed.  The reset then removes the
    file with the root, the backup step has nothing to copy and prints
    "Cannot copy in.ps1", the engine is never invoked, and when the session
    ends neither the original nor a backup exists: no entry of the
    filesystem holds the bytes of the script any more. *)
Theorem C1_file_inside_root_is_lost :
  let typed := "//w/ObfusPS/in.ps1" in
  let w := (ObfusPS_Tool sample_env (sample_world [Line typed; Line "0"])).2 in
  sanitize_path sample_env typed = Some typed
  ∧ sample_fs !! Fs.key sample_env typed = Some (File [Byte.x46; Byte.x47])
  ∧ Fs.within (Fs.key sample_env folder) (Fs.key sample_env typed) = true
  ∧ validate_ps1_file sample_env typed sample_ts (sample_world [])
    = (Val true, sample_world [])
  ∧ Py.startswith (Path.abspath (cwd sample_env) typed)
      (Path.abspath (cwd sample_env) folder +:+ Path.sep) = false
  ∧ (cache_files sample_env sample_ts [typed] (sample_world [])).1 = Val ∅
  ∧ console_mentions (w_out w) "Cached: " = false
  ∧ console_mentions (w_out w) "Previous folders removed." = true
  ∧ console_mentions (w_out w) "Cannot copy in.ps1" = true
  ∧ w_calls w = []
  ∧ w_fs w !! "/w/ObfusPS/in.ps1" = None
  ∧ w_fs w !! "/w/ObfusPS/Script/in.ps1" = None
  ∧ map_Forall (λ _ n, n ≠ File [Byte.x46; Byte.x47]) (w_fs w).
Proof.
  cbv zeta. repeat split; try (vm_compute; reflexivity).
  apply (bool_decide_unpack _). vm_compute. exact I.
Qed.

(** ** The closing report *)

(** C9, as stated, fails: two Auto batches of the same single file, one with
    an engine that succeeds and one with an engine that exits with status 1.
    The first produces one file and the second none, yet both print the same
    closing line, [Obfuscation complete: 1 file(s) -> ...]; so no reading of
    the report yields the number of files produced. *)
Lemma C9_report_blind_to_failures :
  let ok := sample_batch sample_engine in
  let ko := sample_batch (failing_engine "" "engine error") in
  ok.1 = Val tt ∧ ko.1 = Val tt
  ∧ produced sample_ts (w_out ok.2) = 1%nat
  ∧ produced sample_ts (w_out ko.2) = 0%nat
  ∧ summary_line (w_out ok.2) = head (report_lines sample_ts 1)
  ∧ summary_line (w_out ko.2) = head (report_lines sample_ts 1)
  ∧ ¬ report_tells_produced.
Proof.
  cbv zeta.
  assert ((sample_batch sample_engine).1 = Val tt) as Hok1 by (vm_compute; reflexivity).
  assert ((sample_batch (failing_engine "" "engine error")).1 = Val tt) as Hko1
    by (vm_compute; reflexivity).
  assert (produced sample_ts (w_out (sample_batch sample_engine).2) = 1%nat) as Hokp
    by (vm_compute; reflexivity).
  assert (produced sample_ts (w_out (sample_batch (failing_engine "" "engine error")).2)
          = 0%nat) as Hkop by (vm_compute; reflexivity).
  assert (summary_line (w_out (sample_batch sample_engine).2)
          = head (report_lines sample_ts 1)) as Hoks by (vm_compute; reflexivity).
  assert (summary_line (w_out (sample_batch (failing_engine "" "engine error")).2)
          = head (report_lines sample_ts 1)) as Hkos by (vm_compute; reflexivity).
  split; [exact Hok1|]. split; [exact Hko1|]. split; [exact Hokp|].
  split; [exact Hkop|]. split; [exact Hoks|]. split; [exact Hkos|].
  intros [decode Hdecode].
  destruct (sample_batch sample_engine) as [r1 w1] eqn:E1.
  destruct (sample_batch (failing_engine "" "engine error")) as [r2 w2] eqn:E2.
  cbn [fst snd] in Hok1, Hko1, Hokp, Hkop, Hoks, Hkos. subst r1 r2.
  pose proof (Hdecode (with_engine sample_env sample_engine) sample_ts
                (Binary "/usr/bin/obfusps") false true auto_settings ["/home/u/a.ps1"]
                (sample_world []) w1 _ eq_refl E1 Hoks) as H1.
  pose proof (Hdecode (with_engine sample_env (failing_engine "" "engine error"))
                sample_ts (Binary "/usr/bin/obfusps") false true auto_settings
                ["/home/u/a.ps1"] (sample_world []) w2 _ eq_refl E2 Hkos) as H2.
  rewrite Hokp in H1. rewrite Hkop in H2. rewrite H1 in H2. discriminate H2.
Qed.
(** C9 (amended): a batch whose engine is not interrupted from the keyboard
    always runs to its end.  Its closing report then prints the number of
    validated files of the batch, whatever the engine did with each of them,
    and the output folder; the only other way for the batch to end is the
    diagnostic that the folders could not be created. *)
Theorem C9_report_counts_validated_files (env : Env) (ts : string) (r : runner)
    (command_mode use_auto : bool) (s : settings) (valid_files : list string)
    (w : World) :
  uninterrupted env →
  ∃ w',
    run_batch env ts r command_mode use_auto s valid_files w = (Val tt, w')
    ∧ ((∃ pre, w_out w' = pre ++ report_lines ts (length valid_files))
       ∨ (∃ e, last (w_out w')
               = Some (Printed (ts +:+ " " +:+ ERROR
                                +:+ " Cannot create folders: " +:+ e)))).
Proof.
  intros Hun. unfold run_batch. rewrite run_bind.
  destruct (cache_files_from env ts (Path.abspath (cwd env) folder) valid_files ∅ w)
    as (fc & w1 & Hcache & _).
  { intros p c Hp. by rewrite lookup_empty in Hp. }
  unfold cache_files. rewrite Hcache, run_bind.
  destruct (reset_folders_run env ts w1) as (ready & w2 & -> & Hgive).
  destruct ready; cbn [negb mret M_ret].
  - rewrite run_bind.
    destruct (batch_loop_total env ts r command_mode use_auto s fc valid_files w2 Hun)
      as (w3 & ->).
    unfold report. rewrite !run_bind, !run_print. unfold with_console.
    cbn [w_out w_stdin w_fs w_calls].
    eexists. split; [reflexivity|]. left. exists (w_out w3). cbn [w_out].
    rewrite <- !app_assoc. reflexivity.
  - exists w2. split; [reflexivity|]. right. by apply Hgive.
Qed.

Lemma C9_report_counts_witness :
  ∃ w',
    run_batch (with_engine sample_env (failing_engine "" "engine error")) sample_ts
      (Binary "/usr/bin/obfusps") false true auto_settings ["/home/u/a.ps1"]
      (sample_world []) = (Val tt, w')
    ∧ ((∃ pre, w_out w' = pre ++ report_lines sample_ts 1)
       ∨ (∃ e, last (w_out w')
               = Some (Printed (sample_ts +:+ " " +:+ ERROR
                                +:+ " Cannot create folders: " +:+ e)))).
Proof.
  apply (C9_report_counts_validated_files
           (with_engine sample_env (failing_engine "" "engine error")) sample_ts
           (Binary "/usr/bin/obfusps") false true auto_settings ["/home/u/a.ps1"]
           (sample_world [])).
  intros cmd dir fs. discriminate.
Defined.

(** ** Scenarios *)

(** Manual mode, level 3, profile balanced, native AST, no validation, on
    two files called [a.ps1] and one module: the outputs are [a.ps1],
    [a_1.ps1] and [b.psm1], and only the module's command line carries
    [-module-aware]. *)
Example scenario_manual_three_files :
  w_calls (ObfusPS_Tool sample_env
             (scenario_world [Line "/x/a.ps1,/y/a.ps1,/x/b.psm1"; Line "m"; Line "3";
                              Line "balanced"; Line "y"; Line "n"])).2
  = [(["/usr/bin/obfusps"; "-i"; "/x/a.ps1"; "-o"; "ObfusPS/Script-Obfuscate/a.ps1";
       "-level"; "3"; "-profile"; "balanced"; "-context-aware"; "-use-ast"], None);
     (["/usr/bin/obfusps"; "-i"; "/y/a.ps1"; "-o"; "ObfusPS/Script-Obfuscate/a_1.ps1";
       "-level"; "3"; "-profile"; "balanced"; "-context-aware"; "-use-ast"], None);
     (["/usr/bin/obfusps"; "-i"; "/x/b.psm1"; "-o"; "ObfusPS/Script-Obfuscate/b.psm1";
       "-level"; "3"; "-profile"; "balanced"; "-context-aware"; "-module-aware";
       "-use-ast"], None)].
Proof. vm_compute. reflexivity. Qed.

(** Recommend mode on one valid file: one engine call with [-recommend] and
    no [-o], and the filesystem is left as it was. *)
Example scenario_recommend :
  let w := (ObfusPS_Tool sample_env
              (scenario_world [Line "/x/a.ps1"; Line "R"; Line ""])).2 in
  w_calls w = [(["/usr/bin/obfusps"; "-i"; "/x/a.ps1"; "-recommend"], None)]
  ∧ w_fs w = scenario_fs.
Proof. vm_compute. split; reflexivity. Qed.

(** A session with no engine: nothing but the diagnostic happens. *)
Example scenario_no_engine :
  let w := (ObfusPS_Tool bare_env (sample_world [Line ""])).2 in
  w_calls w = [] ∧ w_fs w = sample_fs
  ∧ console_mentions (w_out w) "obfusps not found" = true.
Proof. vm_compute. repeat split. Qed.
